(** * EcoStopBrakeStarter: the restart controller of EcoStopBrakeStarter.c

    A shallow embedding of the ATtiny13A firmware: the port registers are
    8-bit values held in [Z], every read of the input register PINB asks the
    environment for a value, and the C functions become functions of a small
    state monad over the registers. *)

From Stdlib Require Import ZArith Bool Lia.
From Equations Require Import Equations.

Local Open Scope Z_scope.

(** ** Constants of the source *)

Module Timing.
(** Polling interval, ms. *)
Definition POLLING_INTERVAL : Z := 100.
(** Longest wait for the engine to start, ms. *)
Definition CRANKING_MAX_TIME : Z := 4000.
(** Delay before the engine-running line is looked at, ms. *)
Definition START_CHECK_DELAY_TIME : Z := 500.
(** Time the engine-running line has to hold, ms. *)
Definition START_THRESHOLD_TIME : Z := 500.
End Timing.
Export Timing.

(** Bit numbers of avr/io.h for the ATtiny13A (the header is avr-libc's, not
    part of the repository): bit n of port B is PINBn, PORTBn and DDBn; the
    comparator-disable bit ACD is bit 7 of ACSR. *)
Module Avr.
Definition _BV (bit : Z) : Z := Z.shiftl 1 bit.
Definition PINB0 : Z := 0.
Definition PINB1 : Z := 1.
Definition PINB2 : Z := 2.
Definition PINB5 : Z := 5.
Definition PORTB0 : Z := 0.
Definition PORTB1 : Z := 1.
Definition PORTB2 : Z := 2.
Definition PORTB3 : Z := 3.
Definition PORTB4 : Z := 4.
Definition DDB3 : Z := 3.
Definition DDB4 : Z := 4.
Definition ACD : Z := 7.
End Avr.
Export Avr.

Definition IN_DISABLE : Z := _BV PINB0.
Definition IN_N : Z := _BV PINB1.
Definition IN_BRAKE : Z := _BV PINB2.
Definition IN_L : Z := _BV PINB5.

Definition OUT_BRAKE : Z := _BV PORTB3.
Definition OUT_N : Z := _BV PORTB4.

Definition IO_DIR : Z := Z.lor (_BV DDB3) (_BV DDB4).
Definition INPUT_PULL_UP : Z :=
  Z.lor (Z.lor (_BV PORTB0) (_BV PORTB1)) (_BV PORTB2).

(** ** Machine integers *)

(** Store into an 8-bit register or an [unsigned char]. *)
Definition u8 (z : Z) : Z := z mod 256.

(** [int] of avr-gcc: 16 bits, two's complement. *)
Definition int16 (z : Z) : Z := (z + 32768) mod 65536 - 32768.

(** Conversion of an integer to [bool] (C99 _Bool): non-zero is true. *)
Definition c_bool (z : Z) : bool := negb (z =? 0).

(** ** Hardware state

    [PORTB], [DDRB] and [ACSR] are the registers the program writes.
    [clock] and [nread] locate the program in time: [clock] is the sum of the
    arguments of all [_delay_ms] calls so far and [nread] counts the reads of
    PINB since the last delay.  [cranks] counts the calls of [cranking].
    [relay_ms] and [neutral_ms] are the time, out of [clock], that has passed
    with the relay output asserted and with the outward shift signal at
    neutral. *)
Record hw : Type := mkHw {
  PORTB : Z;
  DDRB : Z;
  ACSR : Z;
  clock : Z;
  nread : nat;
  cranks : nat;
  relay_ms : Z;
  neutral_ms : Z
}.

(** Outputs as the vehicle sees them. *)
Definition relay (s : hw) : bool := Z.testbit (PORTB s) PORTB3.
(** [transferShiftPosition] clears OUT_N to report neutral. *)
Definition reports_neutral (s : hw) : bool := negb (Z.testbit (PORTB s) PORTB4).

(** The two output times after a further [ms] spent in state [s]. *)
Definition relay_after (ms : Z) (s : hw) : Z :=
  relay_ms s + (if relay s then ms else 0).
Definition neutral_after (ms : Z) (s : hw) : Z :=
  neutral_ms s + (if reports_neutral s then ms else 0).

Definition set_PORTB (v : Z) (s : hw) : hw :=
  mkHw v (DDRB s) (ACSR s) (clock s) (nread s) (cranks s) (relay_ms s) (neutral_ms s).
Definition set_DDRB (v : Z) (s : hw) : hw :=
  mkHw (PORTB s) v (ACSR s) (clock s) (nread s) (cranks s) (relay_ms s) (neutral_ms s).
Definition set_ACSR (v : Z) (s : hw) : hw :=
  mkHw (PORTB s) (DDRB s) v (clock s) (nread s) (cranks s) (relay_ms s) (neutral_ms s).

(** The input pins: the value of PINB at the [n]-th read made at time [t]
    (reads are not atomic with each other: the pins may change between two
    reads that no delay separates). *)
Definition pins_t : Type := Z -> nat -> Z.

(** ** The state monad of the firmware *)

Definition M (A : Type) : Type := hw -> A * hw.

Definition ret {A} (a : A) : M A := fun s => (a, s).
Definition bind {A B} (m : M A) (k : A -> M B) : M B :=
  fun s => let (a, s') := m s in k a s'.

Declare Scope fw_scope.
Delimit Scope fw_scope with fw.
Notation "x <- m ;; k" := (bind m (fun x => k))
  (at level 61, m at next level, right associativity) : fw_scope.
Notation "m ;;; k" := (bind m (fun _ => k))
  (at level 61, right associativity) : fw_scope.
Local Open Scope fw_scope.

(** C's short-circuit operators on computations that read the port. *)
Definition orM (a b : M bool) : M bool :=
  x <- a ;; if x then ret true else b.
Definition andM (a b : M bool) : M bool :=
  x <- a ;; if x then b else ret false.

Definition exec {A} (m : M A) (s : hw) : hw := snd (m s).

(** [_delay_ms]: time passes, with the outputs as they are. *)
Definition _delay_ms (ms : Z) : M unit :=
  fun s => (tt, mkHw (PORTB s) (DDRB s) (ACSR s) (clock s + ms) 0%nat (cranks s)
                     (relay_after ms s) (neutral_after ms s)).

Definition modify_PORTB (f : Z -> Z) : M unit :=
  fun s => (tt, set_PORTB (u8 (f (PORTB s))) s).

(** ** Signal Reader: polarity of the four inputs *)

Definition disabledOverride (v : Z) : bool := c_bool (Z.land v IN_DISABLE).
Definition neutral (v : Z) : bool := c_bool (Z.land v IN_N).
Definition brakeReleased (v : Z) : bool := c_bool (Z.land v IN_BRAKE).
Definition engineRunning (v : Z) : bool := negb (c_bool (Z.land v IN_L)).

Section Firmware.

Variable pins : pins_t.

(** A read of the volatile register PINB. *)
Definition read_PINB : M Z :=
  fun s => (u8 (pins (clock s) (nread s)),
            mkHw (PORTB s) (DDRB s) (ACSR s) (clock s) (S (nread s)) (cranks s)
                 (relay_ms s) (neutral_ms s)).

Definition isDisabled : M bool := v <- read_PINB ;; ret (disabledOverride v).
Definition isNeutral : M bool := v <- read_PINB ;; ret (neutral v).
Definition isBrakeReleased : M bool := v <- read_PINB ;; ret (brakeReleased v).
Definition isStarted : M bool := v <- read_PINB ;; ret (engineRunning v).

(** Shift-Position Reporter. *)
Definition transferShiftPosition : M unit :=
  c <- orM isDisabled isNeutral ;;
  if c then modify_PORTB (fun p => Z.land p (Z.lnot OUT_N))
  else modify_PORTB (fun p => Z.lor p OUT_N).

(** How the polling loop of [cranking] was left. *)
Inductive crank_exit : Type := StartConfirmed | TimedOut.

(** The loop variable grows with every pass, wrap-around included. *)
Definition passes_left (cranking_time : Z) : nat :=
  Z.to_nat (CRANKING_MAX_TIME - cranking_time).

Lemma passes_left_decr (cranking_time : Z) :
  cranking_time < CRANKING_MAX_TIME ->
  (passes_left (int16 (cranking_time + POLLING_INTERVAL))
   < passes_left cranking_time)%nat.
Proof.
  unfold passes_left, int16, CRANKING_MAX_TIME, POLLING_INTERVAL. intros H.
  pose proof (Z.mod_pos_bound (cranking_time + 100 + 32768) 65536 ltac:(lia)).
  destruct (Z_lt_dec cranking_time (-32868)); [lia|].
  rewrite (Z.mod_small (cranking_time + 100 + 32768) 65536) by lia. lia.
Qed.

Local Opaque passes_left int16 CRANKING_MAX_TIME POLLING_INTERVAL.

(** The unfolding equation of the loop is proved below, by hand and without
    function extensionality. *)
Unset Equations With Funext.
#[local] Set Warnings "-solve_obligation_error".

(** The [for] loop of [cranking], entered with the current values of
    [cranking_time] and [start_time]; returns how the loop was left and the
    final [cranking_time]. *)
Equations? cranking_wait (cranking_time start_time : Z) (s : hw)
  : crank_exit * Z * hw
  by wf (passes_left cranking_time) lt :=
cranking_wait cranking_time start_time s
  with Z_lt_dec cranking_time CRANKING_MAX_TIME := {
  | right _ => (TimedOut, cranking_time, s)
  | left _ =>
      let s1 := exec (_delay_ms POLLING_INTERVAL) s in
      let cranking_time1 := int16 (cranking_time + POLLING_INTERVAL) in
      let '(skip, s2) :=
        orM (ret (START_CHECK_DELAY_TIME >=? cranking_time1))
            (b <- isStarted ;; ret (negb b)) s1 in
      if skip then cranking_wait cranking_time1 0 s2
      else
        let start_time1 :=
          if negb (c_bool start_time) then cranking_time1 else start_time in
        if START_THRESHOLD_TIME <=? int16 (cranking_time1 - start_time1)
        then (StartConfirmed, cranking_time1, s2)
        else cranking_wait cranking_time1 start_time1 s2 }.
Proof.
  all: apply passes_left_decr; assumption.
Qed.

Next Obligation.
unfold cranking_wait. Subterm.unfold_recursor.
- unfold cranking_wait_clause_1.
  destruct (Z_lt_dec _ CRANKING_MAX_TIME); [|reflexivity].
  cbv zeta.
  destruct (orM _ _ _) as [[|] s2];
    [match goal with Hext : forall y h, _ y h = _ y h |- _ => apply Hext end|].
  destruct (START_THRESHOLD_TIME <=? _); [reflexivity|].
  match goal with Hext : forall y h, _ y h = _ y h |- _ => apply Hext end.
- unfold cranking_wait_unfold, cranking_wait_clause_1, cranking_wait_unfold_clause_1.
  destruct (Z_lt_dec cranking_time CRANKING_MAX_TIME); reflexivity.
Defined.

Local Transparent passes_left int16 CRANKING_MAX_TIME POLLING_INTERVAL.

(** The first and the last statement of [cranking]. *)
Definition connect_relay : M unit :=
  modify_PORTB (fun p => Z.land (Z.lor p OUT_BRAKE) (Z.lnot OUT_N)).
Definition disconnect_relay : M unit :=
  modify_PORTB (fun p => Z.land p (Z.lnot OUT_BRAKE)).

(** Cranking Sequencer.  The call is counted in [cranks]. *)
Definition cranking : M unit :=
  (fun s => (tt, mkHw (PORTB s) (DDRB s) (ACSR s) (clock s) (nread s)
                      (S (cranks s)) (relay_ms s) (neutral_ms s))) ;;;
  connect_relay ;;;
  (fun s => (tt, snd (cranking_wait 0 0 s))) ;;;
  disconnect_relay.

Definition init : M unit :=
  (fun s => (tt, set_ACSR (u8 (Z.lor (ACSR s) (_BV ACD))) s)) ;;;
  (fun s => (tt, set_DDRB (u8 IO_DIR) s)) ;;;
  (fun s => (tt, set_PORTB (u8 INPUT_PULL_UP) s)) ;;;
  transferShiftPosition.

(** The locals of [main] that live across passes of its loop. *)
Record ctl : Type := mkCtl {
  isManualStarted : bool;
  lastInput : Z
}.

(** First half of a pass of the loop of [main]: the delay, the update of
    the flag, the port snapshot and the [if] condition.  Returns the
    updated flag, the snapshot and the value of the condition. *)
Definition restart_trigger (c : ctl) : M (bool * Z * bool) :=
  _delay_ms POLLING_INTERVAL ;;;
  started <- isStarted ;;
  let isManualStarted1 := isManualStarted c || started in
  input <- read_PINB ;;
  fire <- andM (ret isManualStarted1)
            (andM (ret (negb started))
               (orM (andM (ret (c_bool (Z.land (Z.lxor (lastInput c) input)
                                               IN_BRAKE)))
                          isBrakeReleased)
                    isDisabled)) ;;
  ret (isManualStarted1, input, fire).

(** The body of the [if]: a crank attempt and the reset of the flag. *)
Definition restart (isManualStarted1 : bool) : M bool :=
  cranking ;;;
  b <- isStarted ;;
  ret (if negb b then false else isManualStarted1).

(** One pass of the [while(1)] loop of [main]. *)
Definition loop_body (c : ctl) : M ctl :=
  r <- restart_trigger c ;;
  let '(isManualStarted1, input, fire) := r in
  isManualStarted2 <- (if fire then restart isManualStarted1
                       else ret isManualStarted1) ;;
  transferShiftPosition ;;;
  ret (mkCtl isManualStarted2 input).

(** [main] up to the loop. *)
Definition boot : M ctl :=
  init ;;;
  input <- read_PINB ;;
  ret (mkCtl false input).

Definition tick (st : ctl * hw) : ctl * hw := loop_body (fst st) (snd st).

(** [main] after [n] passes of its loop, from the power-on state [s0]. *)
Fixpoint run (n : nat) (s0 : hw) : ctl * hw :=
  match n with
  | O => boot s0
  | S n' => tick (run n' s0)
  end.

Fixpoint ticks (n : nat) (st : ctl * hw) : ctl * hw :=
  match n with
  | O => st
  | S n' => tick (ticks n' st)
  end.

(** *** Names for states and samples inside [cranking] *)

(** The state in which the polling loop of [cranking] is entered. *)
Definition cranking_entry (s : hw) : hw :=
  exec connect_relay
    (mkHw (PORTB s) (DDRB s) (ACSR s) (clock s) (nread s) (S (cranks s))
          (relay_ms s) (neutral_ms s)).

(** A loop state one delay later, before and after the port is read. *)
Definition delayed (s : hw) : hw :=
  mkHw (PORTB s) (DDRB s) (ACSR s) (clock s + POLLING_INTERVAL) 0%nat (cranks s)
       (relay_after POLLING_INTERVAL s) (neutral_after POLLING_INTERVAL s).
Definition polled (s : hw) : hw :=
  mkHw (PORTB s) (DDRB s) (ACSR s) (clock s + POLLING_INTERVAL) 1%nat (cranks s)
       (relay_after POLLING_INTERVAL s) (neutral_after POLLING_INTERVAL s).

(** The engine-running input as [cranking], entered at time [t0], samples
    it [t] ms later. *)
Definition running_at (t0 t : Z) : bool := engineRunning (u8 (pins (t0 + t) 0%nat)).

(** One pass of the loop of [cranking] from the loop state [(cranking_time,
    start_time, s)]: the loop state of the next pass, or [None] when the loop
    is left (its condition is false, or the pass ends in [break]). *)
Definition cranking_pass (cranking_time start_time : Z) (s : hw)
  : option (Z * Z * hw) :=
  if Z_lt_dec cranking_time CRANKING_MAX_TIME then
    let cranking_time1 := int16 (cranking_time + POLLING_INTERVAL) in
    if START_CHECK_DELAY_TIME >=? cranking_time1
    then Some (cranking_time1, 0, delayed s)
    else if running_at (clock s) POLLING_INTERVAL then
      let start_time1 := if start_time =? 0 then cranking_time1 else start_time in
      if START_THRESHOLD_TIME <=? int16 (cranking_time1 - start_time1)
      then None
      else Some (cranking_time1, start_time1, polled s)
    else Some (cranking_time1, 0, polled s)
  else None.

(** The loop state after [n] passes, while the loop is running. *)
Fixpoint cranking_passes (n : nat) (x : Z * Z * hw) : option (Z * Z * hw) :=
  match n with
  | O => Some x
  | S n' =>
      match cranking_passes n' x with
      | Some (cranking_time, start_time, s) => cranking_pass cranking_time start_time s
      | None => None
      end
  end.

End Firmware.

(** Registers after reset. *)
Definition power_on : hw := mkHw 0 0 0 0 0%nat 0%nat 0 0.


(** ** Statements of the specification that the code does not meet, and the
    inputs used below *)

(** The pins of the witness below: the brake input changes at every pass, the
    engine never runs. *)
Definition brake_pumping : pins_t :=
  fun t _ => if Z.even (t / POLLING_INTERVAL) then 36 else 32.

(** C5, as the specification states it: engine-running sampled true from the
    start-check delay through the delay plus the threshold makes the loop end
    by success, at that time give or take a polling interval. *)
Definition C5_as_stated (pins : pins_t) (s : hw) : Prop :=
  (forall t,
     START_CHECK_DELAY_TIME <= t <= START_CHECK_DELAY_TIME + START_THRESHOLD_TIME ->
     running_at pins (clock s) t = true) ->
  exists ct,
    fst (cranking_wait pins 0 0 (cranking_entry s)) = (StartConfirmed, ct)
    /\ START_CHECK_DELAY_TIME + START_THRESHOLD_TIME - POLLING_INTERVAL <= ct
       <= START_CHECK_DELAY_TIME + START_THRESHOLD_TIME + POLLING_INTERVAL.

(** The engine runs up to 1000 ms and has stopped at the next poll. *)
Definition engine_dies : pins_t := fun t _ => if t <=? 1000 then 0 else 32.


(** The controller after start-up with the gear engaged and idle-stop
    enabled: the Reporter has set OUT_N, not neutral. *)
Definition in_gear : hw := snd (boot (fun _ _ => 32) power_on).

(** C8, as the specification states it: from a pass boundary with the flag
    set, with idle-stop disabled and the engine not running from then on,
    every pass cranks. *)
Definition C8_as_stated (pins : pins_t) (c : ctl) (s : hw) : Prop :=
  isManualStarted c = true ->
  (forall t k, clock s < t ->
     disabledOverride (pins t k) = true /\ engineRunning (pins t k) = false) ->
  forall n : nat,
    cranks (snd (ticks pins (S n) (c, s)))
    = S (cranks (snd (ticks pins n (c, s)))).

(** Idle-stop is disabled all along; the engine runs during the first pass
    and is stopped afterwards. *)
Definition stalled : pins_t := fun t _ => if t <=? 100 then 1 else 33.


(** Gear engaged, brake depressed, idle-stop enabled, engine stopped. *)
Definition steady : pins_t := fun _ _ => 32.



(** The bits of PINB that carry the four inputs. *)
Definition IN_MASK : Z := Z.lor (Z.lor IN_DISABLE IN_N) (Z.lor IN_BRAKE IN_L).

(** PORTB between passes: the pull-ups, and OUT_N or not. *)
Definition idle_port (p : Z) : Prop :=
  p = INPUT_PULL_UP \/ p = Z.lor INPUT_PULL_UP OUT_N.

(** The engine starts 1500 ms into the attempt: success at 2000 ms. *)
Definition late_start : pins_t := fun t _ => if t <? 1500 then 32 else 0.

(** Ports that differ from [steady] in the other inputs all along, and in
    the engine-running input up to the start-check delay. *)
Definition noisy : pins_t := fun t k => if t <=? 500 then Z.of_nat k else 39.

(** ** Tactics *)

(** Linear arithmetic with the divisions by constants spelled out. *)
Ltac mlia := Z.div_mod_to_equations; lia.

(** Side conditions on bit numbers. *)
Ltac bit_range := cbv delta [PORTB3 PORTB4]; lia.

(** Unfolding of the monad and of the register accesses. *)
Ltac fw_step :=
  cbv delta
    [exec orM andM bind ret
     isDisabled isNeutral isBrakeReleased isStarted read_PINB
     modify_PORTB set_PORTB set_DDRB set_ACSR _delay_ms];
  cbn [fst snd clock nread PORTB DDRB ACSR cranks relay_ms neutral_ms].

(** ** Bits of the ports *)

Section Bits.

Lemma land_BV (v k : Z) :
  0 <= k -> Z.land v (_BV k) = if Z.testbit v k then _BV k else 0.
Proof.
  intros Hk. unfold _BV. rewrite Z.shiftl_1_l.
  apply Z.bits_inj'. intros m Hm.
  rewrite Z.land_spec, Z.pow2_bits_eqb by assumption.
  destruct (Z.eqb_spec k m) as [->|Hne].
  - destruct (Z.testbit v m) eqn:E; rewrite ?Z.pow2_bits_eqb, ?Z.eqb_refl,
      ?Z.bits_0 by assumption; reflexivity.
  - rewrite andb_false_r.
    destruct (Z.testbit v k); rewrite ?Z.pow2_bits_eqb, ?Z.bits_0 by assumption;
      [ symmetry; apply Z.eqb_neq; assumption | reflexivity ].
Qed.

Lemma c_bool_land_BV (v k : Z) :
  0 <= k -> c_bool (Z.land v (_BV k)) = Z.testbit v k.
Proof.
  intros Hk. rewrite land_BV by assumption. unfold c_bool, _BV.
  destruct (Z.testbit v k); [|reflexivity].
  rewrite Z.shiftl_1_l.
  destruct (Z.eqb_spec (2 ^ k) 0) as [E|]; [|reflexivity].
  pose proof (Z.pow_pos_nonneg 2 k ltac:(lia) Hk). lia.
Qed.

Lemma testbit_u8 (v k : Z) : k < 8 -> Z.testbit (u8 v) k = Z.testbit v k.
Proof.
  intros Hk. unfold u8. change 256 with (2 ^ 8).
  destruct (Z_lt_dec k 0) as [Hneg|Hpos].
  - rewrite !Z.testbit_neg_r by assumption. reflexivity.
  - apply Z.mod_pow2_bits_low. lia.
Qed.

Lemma testbit_BV (k m : Z) : 0 <= k -> 0 <= m -> Z.testbit (_BV k) m = (k =? m).
Proof.
  intros Hk Hm. unfold _BV. rewrite Z.shiftl_1_l. apply Z.pow2_bits_eqb. assumption.
Qed.

Lemma disabledOverride_bit v : disabledOverride v = Z.testbit v PINB0.
Proof. apply c_bool_land_BV. discriminate. Qed.
Lemma neutral_bit v : neutral v = Z.testbit v PINB1.
Proof. apply c_bool_land_BV. discriminate. Qed.
Lemma brakeReleased_bit v : brakeReleased v = Z.testbit v PINB2.
Proof. apply c_bool_land_BV. discriminate. Qed.
Lemma engineRunning_bit v : engineRunning v = negb (Z.testbit v PINB5).
Proof. unfold engineRunning. f_equal. apply c_bool_land_BV. discriminate. Qed.

(** The brake bit of the exclusive or of two snapshots: the brake input
    differs between them. *)
Lemma brake_changed (a b : Z) :
  c_bool (Z.land (Z.lxor a b) IN_BRAKE) = xorb (brakeReleased a) (brakeReleased b).
Proof.
  rewrite !brakeReleased_bit. unfold IN_BRAKE.
  rewrite c_bool_land_BV by discriminate. apply Z.lxor_spec.
Qed.

(** What the three stores into PORTB do to a bit. *)
Lemma testbit_clear (p k m : Z) :
  0 <= k -> 0 <= m < 8 ->
  Z.testbit (u8 (Z.land p (Z.lnot (_BV k)))) m = Z.testbit p m && negb (k =? m).
Proof.
  intros Hk Hm. rewrite testbit_u8 by lia.
  rewrite Z.land_spec, Z.lnot_spec, testbit_BV by lia. reflexivity.
Qed.

Lemma testbit_set (p k m : Z) :
  0 <= k -> 0 <= m < 8 ->
  Z.testbit (u8 (Z.lor p (_BV k))) m = Z.testbit p m || (k =? m).
Proof.
  intros Hk Hm. rewrite testbit_u8 by lia.
  rewrite Z.lor_spec, testbit_BV by lia. reflexivity.
Qed.

Lemma testbit_set_clear (p j k m : Z) :
  0 <= j -> 0 <= k -> 0 <= m < 8 ->
  Z.testbit (u8 (Z.land (Z.lor p (_BV j)) (Z.lnot (_BV k)))) m
  = (Z.testbit p m || (j =? m)) && negb (k =? m).
Proof.
  intros Hj Hk Hm. rewrite testbit_u8 by lia.
  rewrite Z.land_spec, Z.lnot_spec, Z.lor_spec, !testbit_BV by lia. reflexivity.
Qed.

End Bits.

(** ** The polling loop of [cranking] *)

Section CrankingLoop.

Variable pins : pins_t.

Lemma cranking_wait_done (ct st : Z) (s : hw) :
  ~ ct < CRANKING_MAX_TIME -> cranking_wait pins ct st s = (TimedOut, ct, s).
Proof.
  intros H. rewrite cranking_wait_equation_1.
  destruct (Z_lt_dec ct CRANKING_MAX_TIME); [contradiction | reflexivity].
Qed.

Lemma cranking_wait_pass (ct st : Z) (s : hw) :
  ct < CRANKING_MAX_TIME ->
  cranking_wait pins ct st s =
    let ct1 := int16 (ct + POLLING_INTERVAL) in
    if START_CHECK_DELAY_TIME >=? ct1 then cranking_wait pins ct1 0 (delayed s)
    else if running_at pins (clock s) POLLING_INTERVAL then
      let st1 := if st =? 0 then ct1 else st in
      if START_THRESHOLD_TIME <=? int16 (ct1 - st1)
      then (StartConfirmed, ct1, polled s)
      else cranking_wait pins ct1 st1 (polled s)
    else cranking_wait pins ct1 0 (polled s).
Proof.
  intros H. rewrite cranking_wait_equation_1.
  destruct (Z_lt_dec ct CRANKING_MAX_TIME) as [l|]; [|contradiction].
  cbn -[int16 Z.geb Z.leb cranking_wait engineRunning u8].
  destruct (START_CHECK_DELAY_TIME >=? int16 (ct + POLLING_INTERVAL)).
  - reflexivity.
  - cbn -[int16 Z.geb Z.leb cranking_wait engineRunning u8].
    unfold running_at.
    destruct (engineRunning (u8 (pins (clock s + POLLING_INTERVAL) 0%nat)));
      cbn -[int16 Z.geb Z.leb cranking_wait]; [|reflexivity].
    unfold c_bool. rewrite negb_involutive. reflexivity.
Qed.

(** Induction over the passes of the loop. *)
Lemma cranking_wait_passes (P : Z -> Prop) :
  (forall ct, (ct < CRANKING_MAX_TIME -> P (int16 (ct + POLLING_INTERVAL))) -> P ct) ->
  forall ct, P ct.
Proof.
  intros step ct.
  remember (passes_left ct) as n eqn:En.
  revert ct En. induction n as [n IH] using lt_wf_ind. intros ct En.
  apply step. intros Hlt.
  apply (IH (passes_left (int16 (ct + POLLING_INTERVAL)))); [|reflexivity].
  subst n. apply passes_left_decr. assumption.
Qed.

(** The loop touches no register and calls nothing. *)
Lemma cranking_wait_frame (ct st : Z) (s : hw) :
  let s' := snd (cranking_wait pins ct st s) in
  PORTB s' = PORTB s /\ DDRB s' = DDRB s /\ ACSR s' = ACSR s /\ cranks s' = cranks s.
Proof.
  revert st s. pattern ct. apply cranking_wait_passes. clear ct.
  intros ct IH st s.
  destruct (Z_lt_dec ct CRANKING_MAX_TIME) as [Hlt|Hge].
  - rewrite cranking_wait_pass by assumption. cbv zeta.
    specialize (IH Hlt).
    repeat match goal with
           | |- context [if ?b then _ else _] => destruct b
           end;
      try apply (IH _ (delayed s)); try apply (IH _ (polled s));
      repeat split; reflexivity.
  - rewrite cranking_wait_done by assumption. repeat split; reflexivity.
Qed.

Lemma int16_small (z : Z) : -32768 <= z < 32768 -> int16 z = z.
Proof. intros H. unfold int16. rewrite Z.mod_small by lia. lia. Qed.

(** Elapsed time, exit and read count of the loop.  [cranking_time] is a
    multiple of the polling interval and [start_time] is unset or a time
    after the start-check delay. *)
Lemma cranking_wait_timing (ct st : Z) (s : hw) :
  0 <= ct <= CRANKING_MAX_TIME -> ct mod POLLING_INTERVAL = 0 ->
  st = 0 \/ START_CHECK_DELAY_TIME + POLLING_INTERVAL <= st <= ct ->
  let '(e, ct', s') := cranking_wait pins ct st s in
  ct <= ct' <= CRANKING_MAX_TIME /\ ct' mod POLLING_INTERVAL = 0 /\
  clock s' = clock s + (ct' - ct) /\
  (ct < CRANKING_MAX_TIME -> ct < ct' /\ nread s' = 1%nat) /\
  (ct = CRANKING_MAX_TIME -> s' = s) /\
  match e with
  | StartConfirmed =>
      START_CHECK_DELAY_TIME + POLLING_INTERVAL + START_THRESHOLD_TIME <= ct'
  | TimedOut => ct' = CRANKING_MAX_TIME
  end.
Proof.
  revert st s. pattern ct. apply cranking_wait_passes. clear ct.
  unfold CRANKING_MAX_TIME, POLLING_INTERVAL, START_CHECK_DELAY_TIME,
    START_THRESHOLD_TIME.
  intros ct IH st s Hct Hmod Hst.
  destruct (Z_lt_dec ct CRANKING_MAX_TIME) as [Hlt|Hge].
  - rewrite cranking_wait_pass by assumption. cbv zeta.
    unfold CRANKING_MAX_TIME, POLLING_INTERVAL, START_CHECK_DELAY_TIME,
      START_THRESHOLD_TIME in *.
    specialize (IH Hlt).
    rewrite (int16_small (ct + 100)) in * by mlia.
    assert (Hct1 : 0 <= ct + 100 <= 4000) by mlia.
    assert (Hmod1 : (ct + 100) mod 100 = 0) by mlia.
    destruct (Z.geb_spec 500 (ct + 100)) as [Hdelay|Hpast].
    + specialize (IH 0 (delayed s) Hct1 Hmod1 (or_introl eq_refl)).
      destruct (cranking_wait pins (ct + 100) 0 (delayed s)) as [[e ct'] s'].
      cbn [clock delayed] in IH. unfold POLLING_INTERVAL in IH.
      destruct IH as (? & ? & ? & Hn & ? & ?).
      repeat split; try mlia; try (apply Hn; mlia). assumption.
    + destruct (running_at pins (clock s) 100).
      * set (st1 := if st =? 0 then ct + 100 else st).
        assert (Hst1 : 600 <= st1 <= ct + 100).
        { unfold st1. destruct (Z.eqb_spec st 0); mlia. }
        rewrite (int16_small (ct + 100 - st1)) by mlia.
        destruct (Z.leb_spec 500 (ct + 100 - st1)) as [Hok|Hno].
        -- cbn [clock polled nread]. unfold POLLING_INTERVAL.
           repeat split; try mlia.
        -- specialize (IH st1 (polled s) Hct1 Hmod1 (or_intror Hst1)).
           destruct (cranking_wait pins (ct + 100) st1 (polled s)) as [[e ct'] s'].
           cbn [clock polled] in IH. unfold POLLING_INTERVAL in IH.
           destruct IH as (? & ? & ? & Hn & Hz & ?).
           assert (Hr : nread s' = 1%nat).
           { destruct (Z.eq_dec (ct + 100) 4000) as [E|NE];
               [rewrite (Hz E); reflexivity | apply Hn; mlia]. }
           repeat split; try mlia; assumption.
      * specialize (IH 0 (polled s) Hct1 Hmod1 (or_introl eq_refl)).
        destruct (cranking_wait pins (ct + 100) 0 (polled s)) as [[e ct'] s'].
        cbn [clock polled] in IH. unfold POLLING_INTERVAL in IH.
        destruct IH as (? & ? & ? & Hn & Hz & ?).
        assert (Hr : nread s' = 1%nat).
        { destruct (Z.eq_dec (ct + 100) 4000) as [E|NE];
            [rewrite (Hz E); reflexivity | apply Hn; mlia]. }
        repeat split; try mlia; assumption.
  - rewrite cranking_wait_done by assumption.
    unfold CRANKING_MAX_TIME in *. repeat split; try mlia.
Qed.

(** An engine that is never seen running: the loop runs out of time. *)
Lemma cranking_wait_never (t0 ct st : Z) (s : hw) :
  clock s = t0 + ct ->
  0 <= ct <= CRANKING_MAX_TIME -> ct mod POLLING_INTERVAL = 0 ->
  (forall t, ct < t <= CRANKING_MAX_TIME -> START_CHECK_DELAY_TIME < t ->
             t mod POLLING_INTERVAL = 0 -> running_at pins t0 t = false) ->
  fst (fst (cranking_wait pins ct st s)) = TimedOut.
Proof.
  revert st s. pattern ct. apply cranking_wait_passes. clear ct.
  intros ct IH st s Hclock Hct Hmod Hoff.
  destruct (Z_lt_dec ct CRANKING_MAX_TIME) as [Hlt|Hge].
  - rewrite cranking_wait_pass by assumption. cbv zeta.
    specialize (IH Hlt).
    unfold CRANKING_MAX_TIME, POLLING_INTERVAL, START_CHECK_DELAY_TIME in *.
    rewrite (int16_small (ct + 100)) in * by mlia.
    destruct (Z.geb_spec 500 (ct + 100)) as [Hdelay|Hpast].
    + apply IH; cbn [clock delayed]; unfold POLLING_INTERVAL; try mlia.
      intros t Ht1 Ht2 Ht3. apply Hoff; mlia.
    + assert (Hs : running_at pins (clock s) 100 = false).
      { unfold running_at. rewrite Hclock.
        replace (t0 + ct + 100) with (t0 + (ct + 100)) by mlia.
        apply Hoff; mlia. }
      rewrite Hs.
      apply IH; cbn [clock polled]; unfold POLLING_INTERVAL; try mlia.
      intros t Ht1 Ht2 Ht3. apply Hoff; mlia.
  - rewrite cranking_wait_done by assumption. reflexivity.
Qed.

(** An engine seen running at every poll up to [T], the time at which the
    running period reaches the threshold: the loop is left at [T]. *)
Lemma cranking_wait_confirms (t0 T ct st : Z) (s : hw) :
  clock s = t0 + ct ->
  0 <= ct < T -> T <= CRANKING_MAX_TIME ->
  ct mod POLLING_INTERVAL = 0 -> T mod POLLING_INTERVAL = 0 ->
  (forall t, ct < t <= T -> START_CHECK_DELAY_TIME < t ->
             t mod POLLING_INTERVAL = 0 -> running_at pins t0 t = true) ->
  (if ct <? START_CHECK_DELAY_TIME
   then T = START_CHECK_DELAY_TIME + POLLING_INTERVAL + START_THRESHOLD_TIME
   else (st = 0 /\ T = ct + POLLING_INTERVAL + START_THRESHOLD_TIME)
        \/ (START_CHECK_DELAY_TIME < st <= ct /\ T = st + START_THRESHOLD_TIME)) ->
  fst (cranking_wait pins ct st s) = (StartConfirmed, T).
Proof.
  revert st s. pattern ct. apply cranking_wait_passes. clear ct.
  intros ct IH st s Hclock Hct HT Hmod HTmod Hon Hphase.
  unfold CRANKING_MAX_TIME, POLLING_INTERVAL, START_CHECK_DELAY_TIME,
    START_THRESHOLD_TIME in *.
  rewrite cranking_wait_pass by (unfold CRANKING_MAX_TIME; lia). cbv zeta.
  unfold CRANKING_MAX_TIME, POLLING_INTERVAL, START_CHECK_DELAY_TIME,
    START_THRESHOLD_TIME in *.
  specialize (IH ltac:(lia)).
  rewrite (int16_small (ct + 100)) in * by lia.
  assert (Hmod1 : (ct + 100) mod 100 = 0) by mlia.
  destruct (Z.geb_spec 500 (ct + 100)) as [Hdelay|Hpast].
  - destruct (Z.ltb_spec ct 500) as [_|]; [|lia].
    apply IH; cbn [clock delayed]; unfold POLLING_INTERVAL; try mlia.
    + intros t Ht1 Ht2. apply Hon; lia.
    + destruct (Z.ltb_spec (ct + 100) 500); [assumption | left; mlia].
  - destruct (Z.ltb_spec ct 500) as [|_]; [mlia|].
    assert (Hs : running_at pins (clock s) 100 = true).
    { unfold running_at. rewrite Hclock.
      replace (t0 + ct + 100) with (t0 + (ct + 100)) by lia.
      apply Hon; mlia. }
    rewrite Hs.
    set (st1 := if st =? 0 then ct + 100 else st).
    assert (Hst1 : 500 < st1 <= ct + 100 /\ T = st1 + 500).
    { unfold st1. destruct (Z.eqb_spec st 0); lia. }
    rewrite (int16_small (ct + 100 - st1)) by lia.
    destruct (Z.leb_spec 500 (ct + 100 - st1)) as [Hok|Hno].
    + cbn [fst]. f_equal. mlia.
    + apply IH; cbn [clock polled]; unfold POLLING_INTERVAL; try mlia.
      * intros t Ht1 Ht2. apply Hon; lia.
      * destruct (Z.ltb_spec (ct + 100) 500); [lia | right; lia].
Qed.




(** With the engine never seen running, the first passes only count time. *)
Lemma cranking_passes_never (t0 : Z) (s : hw) (n : nat) :
  clock s = t0 ->
  (forall t, START_CHECK_DELAY_TIME < t <= CRANKING_MAX_TIME ->
             t mod POLLING_INTERVAL = 0 -> running_at pins t0 t = false) ->
  Z.of_nat n * POLLING_INTERVAL <= CRANKING_MAX_TIME ->
  exists sn,
    cranking_passes pins n (0, 0, s) = Some (Z.of_nat n * POLLING_INTERVAL, 0, sn)
    /\ clock sn = t0 + Z.of_nat n * POLLING_INTERVAL.
Proof.
intros Hclock Hoff. induction n as [|n IH]; intros Hn.
- exists s. split; [reflexivity|]. rewrite Hclock. unfold POLLING_INTERVAL. lia.
- unfold CRANKING_MAX_TIME, POLLING_INTERVAL, START_CHECK_DELAY_TIME in *.
  destruct (IH ltac:(lia)) as (sn & Hp & Hc).
  cbn [cranking_passes]. rewrite Hp. unfold cranking_pass.
  unfold CRANKING_MAX_TIME, POLLING_INTERVAL, START_CHECK_DELAY_TIME.
  destruct (Z_lt_dec (Z.of_nat n * 100) 4000); [|lia].
  rewrite (int16_small (Z.of_nat n * 100 + 100)) by lia.
  replace (Z.of_nat n * 100 + 100) with (Z.of_nat (S n) * 100) by lia.
  destruct (Z.geb_spec 500 (Z.of_nat (S n) * 100)).
  + exists (delayed sn). split; [reflexivity|].
    cbn [clock delayed]. unfold POLLING_INTERVAL. lia.
  + assert (Hs : running_at pins (clock sn) 100 = false).
    { unfold running_at. rewrite Hc.
      replace (t0 + Z.of_nat n * 100 + 100) with (t0 + Z.of_nat (S n) * 100) by lia.
      apply Hoff; mlia. }
    rewrite Hs. exists (polled sn). split; [reflexivity|].
    cbn [clock polled]. unfold POLLING_INTERVAL. lia.
Qed.

End CrankingLoop.

(** ** The functions of the firmware, one by one *)

Arguments cranking_wait : simpl never.

Section Functions.

Variable pins : pins_t.

Lemma disabledOverride_u8 v : disabledOverride (u8 v) = disabledOverride v.
Proof. rewrite !disabledOverride_bit. apply testbit_u8. reflexivity. Qed.
Lemma neutral_u8 v : neutral (u8 v) = neutral v.
Proof. rewrite !neutral_bit. apply testbit_u8. reflexivity. Qed.
Lemma brakeReleased_u8 v : brakeReleased (u8 v) = brakeReleased v.
Proof. rewrite !brakeReleased_bit. apply testbit_u8. reflexivity. Qed.
Lemma engineRunning_u8 v : engineRunning (u8 v) = engineRunning v.
Proof. rewrite !engineRunning_bit. f_equal. apply testbit_u8. reflexivity. Qed.

(** *** transferShiftPosition *)

(** The Reporter reads the port once or twice and stores into PORTB. *)
Lemma transferShiftPosition_exec (s : hw) :
let d := disabledOverride (pins (clock s) (nread s)) in
let n := neutral (pins (clock s) (S (nread s))) in
exec (transferShiftPosition pins) s =
  mkHw (if d || n then u8 (Z.land (PORTB s) (Z.lnot OUT_N))
        else u8 (Z.lor (PORTB s) OUT_N))
       (DDRB s) (ACSR s) (clock s)
       (if d then S (nread s) else S (S (nread s))) (cranks s)
       (relay_ms s) (neutral_ms s).
Proof.
unfold transferShiftPosition. fw_step. rewrite disabledOverride_u8.
destruct (disabledOverride (pins (clock s) (nread s))).
- reflexivity.
- fw_step. rewrite neutral_u8.
  destruct (neutral (pins (clock s) (S (nread s)))); reflexivity.
Qed.


Lemma transferShiftPosition_frame (s : hw) :
  let s' := exec (transferShiftPosition pins) s in
  clock s' = clock s /\ cranks s' = cranks s.
Proof. rewrite transferShiftPosition_exec. split; reflexivity. Qed.

Lemma transferShiftPosition_relay (s : hw) :
relay (exec (transferShiftPosition pins) s) = relay s.
Proof.
rewrite transferShiftPosition_exec. cbv zeta. unfold relay.
cbn [PORTB]. unfold OUT_N.
destruct (_ || _).
- rewrite testbit_clear by bit_range.
  apply andb_true_r.
- rewrite testbit_set by bit_range.
  apply orb_false_r.
Qed.

(** *** cranking *)

Lemma connect_relay_outputs (s : hw) :
relay (exec connect_relay s) = true
/\ reports_neutral (exec connect_relay s) = true.
Proof.
unfold relay, reports_neutral, connect_relay, modify_PORTB, exec, set_PORTB.
cbn [snd PORTB]. unfold OUT_BRAKE, OUT_N.
rewrite !testbit_set_clear by bit_range.
split.
- rewrite orb_true_r. reflexivity.
- rewrite Z.eqb_refl, andb_false_r. reflexivity.
Qed.

Lemma disconnect_relay_outputs (s : hw) :
relay (exec disconnect_relay s) = false
/\ reports_neutral (exec disconnect_relay s) = reports_neutral s.
Proof.
unfold relay, reports_neutral, disconnect_relay, modify_PORTB, exec, set_PORTB.
cbn [snd PORTB]. unfold OUT_BRAKE.
rewrite !testbit_clear by bit_range.
split.
- rewrite Z.eqb_refl, andb_false_r. reflexivity.
- rewrite andb_true_r. reflexivity.
Qed.

Lemma cranking_exec (s : hw) :
exec (cranking pins) s
= exec disconnect_relay (snd (cranking_wait pins 0 0 (cranking_entry s))).
Proof. reflexivity. Qed.

Lemma cranking_post (s : hw) :
  let s' := exec (cranking pins) s in
  relay s' = false /\ reports_neutral s' = true /\
  cranks s' = S (cranks s) /\ DDRB s' = DDRB s /\ ACSR s' = ACSR s /\
  nread s' = 1%nat /\
  START_CHECK_DELAY_TIME + POLLING_INTERVAL + START_THRESHOLD_TIME
    <= clock s' - clock s <= CRANKING_MAX_TIME.
Proof.
cbv zeta. rewrite cranking_exec.
pose proof (cranking_wait_frame pins 0 0 (cranking_entry s)) as Hf.
pose proof (cranking_wait_timing pins 0 0 (cranking_entry s)) as Ht.
destruct (cranking_wait pins 0 0 (cranking_entry s)) as [[e ct] s1].
cbn [snd] in *. cbv zeta in Hf.
destruct Hf as (HP & HD & HA & HC).
specialize (Ht ltac:(unfold CRANKING_MAX_TIME; lia) eq_refl (or_introl eq_refl)).
destruct Ht as (Hct & _ & Hclock & Hn & _ & He).
destruct (Hn ltac:(unfold CRANKING_MAX_TIME; lia)) as [Hpos Hread].
destruct (disconnect_relay_outputs s1) as [Hr Hk].
destruct (connect_relay_outputs
            (mkHw (PORTB s) (DDRB s) (ACSR s) (clock s) (nread s) (S (cranks s))
          (relay_ms s) (neutral_ms s)))
  as [_ Hk0].
fold (cranking_entry s) in Hk0.
repeat split.
- exact Hr.
- rewrite Hk. unfold reports_neutral in *. rewrite HP. exact Hk0.
- unfold disconnect_relay, connect_relay. fw_step. rewrite HC. reflexivity.
- unfold disconnect_relay, connect_relay. fw_step. rewrite HD. reflexivity.
- unfold disconnect_relay, connect_relay. fw_step. rewrite HA. reflexivity.
- unfold disconnect_relay, connect_relay. fw_step. exact Hread.
- unfold disconnect_relay, connect_relay. fw_step. rewrite Hclock. unfold cranking_entry, connect_relay. fw_step.
  destruct e; unfold CRANKING_MAX_TIME, START_CHECK_DELAY_TIME, POLLING_INTERVAL,
    START_THRESHOLD_TIME in *; lia.
- unfold disconnect_relay, connect_relay. fw_step. rewrite Hclock. unfold cranking_entry, connect_relay. fw_step.
  unfold CRANKING_MAX_TIME in *. lia.
Qed.

(** *** The loop of main *)

(** The condition of the [if], by the reads that compute it: the reads of one
    pass are numbered from the delay that starts it. *)
Lemma restart_trigger_exec (c : ctl) (s : hw) :
  let t := clock s + POLLING_INTERVAL in
  let started := engineRunning (pins t 0%nat) in
  let isManualStarted1 := isManualStarted c || started in
  let input := u8 (pins t 1%nat) in
  let changed := xorb (brakeReleased (lastInput c)) (brakeReleased (pins t 1%nat)) in
  let fire :=
    isManualStarted1 && negb started &&
    (if changed
     then brakeReleased (pins t 2%nat) || disabledOverride (pins t 3%nat)
     else disabledOverride (pins t 2%nat)) in
  exists k : nat,
    restart_trigger pins c s
    = ((isManualStarted1, input, fire),
       mkHw (PORTB s) (DDRB s) (ACSR s) t k (cranks s)
            (relay_after POLLING_INTERVAL s) (neutral_after POLLING_INTERVAL s)).
Proof.
cbv zeta. unfold restart_trigger. fw_step.
rewrite engineRunning_u8, brake_changed, brakeReleased_u8.
destruct (isManualStarted c || engineRunning (pins (clock s + POLLING_INTERVAL) 0%nat));
  [|eexists; reflexivity].
destruct (engineRunning (pins (clock s + POLLING_INTERVAL) 0%nat));
  [eexists; reflexivity|].
cbn [negb andb].
destruct (xorb _ _).
- fw_step. rewrite brakeReleased_u8.
  destruct (brakeReleased (pins (clock s + POLLING_INTERVAL) 2%nat)).
  + eexists; reflexivity.
  + fw_step. rewrite disabledOverride_u8. eexists; reflexivity.
- fw_step. rewrite disabledOverride_u8. eexists; reflexivity.
Qed.

Lemma loop_body_eq (c : ctl) (s : hw) :
  loop_body pins c s =
    let '(isManualStarted1, input, fire, s1) := restart_trigger pins c s in
    if fire then
      let s2 := exec (cranking pins) s1 in
      let '(b, s3) := isStarted pins s2 in
      (mkCtl (if negb b then false else isManualStarted1) input,
       exec (transferShiftPosition pins) s3)
    else (mkCtl isManualStarted1 input, exec (transferShiftPosition pins) s1).
Proof.
unfold loop_body at 1. unfold bind at 1.
destruct (restart_trigger pins c s) as [[[ims input] fire] s1].
destruct fire.
- unfold restart, bind, exec, ret.
  destruct (cranking pins s1) as [[] s2]. cbn [snd].
  destruct (isStarted pins s2) as [b s3].
  destruct (transferShiftPosition pins s3) as [[] s4]. reflexivity.
- unfold bind, exec, ret.
  destruct (transferShiftPosition pins s1) as [[] s4]. reflexivity.
Qed.

End Functions.

(** ** The controller across passes of its loop *)

Section Loop.

Variable pins : pins_t.

Lemma restart_trigger_frame (c : ctl) (s : hw) :
  let s1 := snd (restart_trigger pins c s) in
  PORTB s1 = PORTB s /\ cranks s1 = cranks s /\
  clock s1 = clock s + POLLING_INTERVAL.
Proof.
cbv zeta. destruct (restart_trigger_exec pins c s) as [k Hk]. cbv zeta in Hk.
rewrite Hk. repeat split; reflexivity.
Qed.

Lemma isStarted_exec (s : hw) :
  isStarted pins s
  = (engineRunning (pins (clock s) (nread s)),
     mkHw (PORTB s) (DDRB s) (ACSR s) (clock s) (S (nread s)) (cranks s)
                 (relay_ms s) (neutral_ms s)).
Proof. fw_step. rewrite engineRunning_u8. reflexivity. Qed.

(** One pass of the loop: the relay is off after it whenever it was off
    before it. *)
Lemma loop_body_relay (c : ctl) (s : hw) :
  relay s = false -> relay (snd (loop_body pins c s)) = false.
Proof.
intros Hoff. rewrite loop_body_eq.
destruct (restart_trigger_exec pins c s) as [k Hk]. cbv zeta in Hk. rewrite Hk.
match goal with |- context [if ?f then _ else _] => destruct f end.
- cbv zeta. rewrite isStarted_exec. cbn [snd].
  rewrite transferShiftPosition_relay.
  match goal with |- relay (mkHw (PORTB ?x) _ _ _ _ _ _ _) = _ =>
    change (relay x = false) end.
  apply cranking_post.
- cbn [snd]. rewrite transferShiftPosition_relay. exact Hoff.
Qed.

Lemma boot_relay (s0 : hw) : relay (snd (boot pins s0)) = false.
Proof.
unfold boot, init. fw_step.
match goal with
| |- context [transferShiftPosition pins ?x] =>
    pose proof (transferShiftPosition_relay pins x) as Hr;
    unfold exec in Hr;
    destruct (transferShiftPosition pins x) as [[] s1]
end.
cbn [snd fst] in *. unfold relay in *. cbn [PORTB] in *. rewrite Hr.
reflexivity.
Qed.

Lemma run_relay (n : nat) (s0 : hw) : relay (snd (run pins n s0)) = false.
Proof.
induction n as [|n IH]; cbn [run].
- apply boot_relay.
- unfold tick. apply loop_body_relay. exact IH.
Qed.

(** A pass calls [cranking] exactly when the condition of its [if] holds. *)
Lemma loop_body_cranks (c : ctl) (s : hw) :
  cranks (snd (loop_body pins c s))
  = if snd (fst (restart_trigger pins c s)) then S (cranks s) else cranks s.
Proof.
rewrite loop_body_eq.
destruct (restart_trigger_frame c s) as (_ & HC & _).
destruct (restart_trigger pins c s) as [[[ims input] fire] s1].
cbn [fst snd] in *. destruct fire.
- cbv zeta. rewrite isStarted_exec. cbn [snd].
  match goal with |- context [exec (transferShiftPosition pins) ?x] =>
    destruct (transferShiftPosition_frame pins x) as [_ Hk] end.
  rewrite Hk. cbn [cranks].
  destruct (cranking_post pins s1) as (_ & _ & Hn & _). rewrite Hn, HC. reflexivity.
- cbn [snd].
  destruct (transferShiftPosition_frame pins s1) as [_ Hk].
  rewrite Hk. exact HC.
Qed.

Lemma loop_body_clock (c : ctl) (s : hw) :
  snd (fst (restart_trigger pins c s)) = false ->
  clock (snd (loop_body pins c s)) = clock s + POLLING_INTERVAL.
Proof.
rewrite loop_body_eq.
destruct (restart_trigger_frame c s) as (_ & _ & HT).
destruct (restart_trigger pins c s) as [[[ims input] fire] s1].
cbn [fst snd] in *. intros ->. cbn [snd].
destruct (transferShiftPosition_frame pins s1) as [Hc _]. rewrite Hc. exact HT.
Qed.

(** The flag after a pass. *)
Lemma loop_body_flag (c : ctl) (s : hw) :
  let '(isManualStarted1, _, fire, s1) := restart_trigger pins c s in
  let s2 := exec (cranking pins) s1 in
  isManualStarted (fst (loop_body pins c s))
  = if fire
    then (if engineRunning (pins (clock s2) 1%nat) then isManualStarted1 else false)
    else isManualStarted1.
Proof.
rewrite loop_body_eq.
destruct (restart_trigger pins c s) as [[[ims input] fire] s1].
cbv zeta. destruct fire; [|reflexivity].
rewrite isStarted_exec.
destruct (cranking_post pins s1) as (_ & _ & _ & _ & _ & Hn & _). rewrite Hn.
cbn [fst isManualStarted].
destruct (engineRunning _); reflexivity.
Qed.

(** While the flag is clear and the engine is not seen running, passes
    follow each other at the polling interval and none cranks. *)
Lemma ticks_unarmed (m : nat) (c : ctl) (s : hw) :
  isManualStarted c = false ->
  (forall j : nat, (1 <= j <= m)%nat ->
     engineRunning (pins (clock s + Z.of_nat j * POLLING_INTERVAL) 0%nat) = false) ->
  let '(c', s') := ticks pins m (c, s) in
  isManualStarted c' = false /\ cranks s' = cranks s
  /\ clock s' = clock s + Z.of_nat m * POLLING_INTERVAL.
Proof.
intros Hflag. induction m as [|m IH]; intros Hoff.
- cbn [ticks]. repeat split; try reflexivity; try assumption.
  unfold POLLING_INTERVAL. lia.
- cbn [ticks]. specialize (IH ltac:(intros j Hj; apply Hoff; lia)).
  destruct (ticks pins m (c, s)) as [cm sm]. destruct IH as (Hf & Hc & Ht).
  unfold tick. cbn [fst snd].
  pose proof (loop_body_cranks cm sm) as Hcr.
  pose proof (loop_body_clock cm sm) as Hcl.
  pose proof (loop_body_flag cm sm) as Hfl.
  destruct (restart_trigger_exec pins cm sm) as [k Hk]. cbv zeta in Hk.
  assert (Hs : engineRunning (pins (clock sm + POLLING_INTERVAL) 0%nat) = false).
  { rewrite Ht. replace (clock s + Z.of_nat m * POLLING_INTERVAL + POLLING_INTERVAL)
      with (clock s + Z.of_nat (S m) * POLLING_INTERVAL)
      by (unfold POLLING_INTERVAL; lia).
    apply Hoff. lia. }
  rewrite Hf, Hs in Hk. cbn [orb andb] in Hk.
  rewrite Hk in Hcr, Hcl, Hfl. cbn [fst snd] in Hcr, Hcl, Hfl.
  destruct (loop_body pins cm sm) as [c' s']. cbn [fst snd] in *.
  repeat split; try congruence. rewrite Hcl by reflexivity.
  unfold POLLING_INTERVAL in *. lia.
Qed.

End Loop.

(** ** Two environments *)

Section TwoPorts.

Variables pins1 pins2 : pins_t.
Hypothesis same_reads : forall t k, pins1 t k = pins2 t k.













End TwoPorts.

(** Time moves on with every pass. *)
Lemma loop_body_later (pins : pins_t) (c : ctl) (s : hw) :
  clock s < clock (snd (loop_body pins c s)).
Proof.
rewrite loop_body_eq.
destruct (restart_trigger_frame pins c s) as (_ & _ & HT).
destruct (restart_trigger pins c s) as [[[ims input] fire] s1].
cbn [snd] in HT. destruct fire.
- cbv zeta. rewrite isStarted_exec. cbn [snd].
  match goal with |- context [exec (transferShiftPosition pins) ?x] =>
    destruct (transferShiftPosition_frame pins x) as [Hc _] end.
  rewrite Hc. cbn [clock].
  destruct (cranking_post pins s1) as (_ & _ & _ & _ & _ & _ & Hd).
  unfold START_CHECK_DELAY_TIME, POLLING_INTERVAL, START_THRESHOLD_TIME in *. lia.
- cbn [snd]. destruct (transferShiftPosition_frame pins s1) as [Hc _].
  rewrite Hc, HT. unfold POLLING_INTERVAL. lia.
Qed.

Lemma ticks_S_first (pins : pins_t) (n : nat) (st : ctl * hw) :
  ticks pins (S n) st = ticks pins n (tick pins st).
Proof.
induction n as [|n IH]; [reflexivity|].
change (ticks pins (S (S n)) st) with (tick pins (ticks pins (S n) st)).
rewrite IH. reflexivity.
Qed.

(** ** The properties of the specification *)

(** C1. The relay output is off when [cranking] returns, from whatever state
    it was called and by whichever exit its loop was left (the statement that
    disconnects the relay follows the loop on both); and in every state the
    controller reaches between passes of its loop, as in the state in which
    the [if] of that pass calls [cranking], the relay is off. *)
Theorem C1_relay_released (pins : pins_t) :
  (forall s, relay (exec (cranking pins) s) = false)
  /\ (forall s e ct s1,
        cranking_wait pins 0 0 (cranking_entry s) = (e, ct, s1) ->
        relay (exec disconnect_relay s1) = false
        /\ exec (cranking pins) s = exec disconnect_relay s1)
  /\ (forall s0 n,
        let '(c, s) := run pins n s0 in
        relay s = false
        /\ relay (snd (restart_trigger pins c s)) = false
        /\ relay (snd (loop_body pins c s)) = false).
Proof.
split; [|split].
- intros s. apply cranking_post.
- intros s e ct s1 H. split.
  + apply disconnect_relay_outputs.
  + rewrite cranking_exec, H. reflexivity.
- intros s0 n. pose proof (run_relay pins n s0) as Hr.
  destruct (run pins n s0) as [c s]. cbn [snd] in Hr.
  split; [exact Hr|]. split.
  + destruct (restart_trigger_frame pins c s) as (HP & _).
    unfold relay in *. rewrite HP. exact Hr.
  + apply loop_body_relay. exact Hr.
Qed.







(** C5 fails as stated: with the engine seen running through 1000 ms only,
    the loop runs to the time-out. *)
Lemma C5_counterexample :
  (forall t,
     START_CHECK_DELAY_TIME <= t <= START_CHECK_DELAY_TIME + START_THRESHOLD_TIME ->
     running_at engine_dies (clock power_on) t = true)
  /\ fst (cranking_wait engine_dies 0 0 (cranking_entry power_on))
     = (TimedOut, CRANKING_MAX_TIME)
  /\ ~ C5_as_stated engine_dies power_on.
Proof.
assert (Hon : forall t,
          START_CHECK_DELAY_TIME <= t <= START_CHECK_DELAY_TIME + START_THRESHOLD_TIME ->
          running_at engine_dies (clock power_on) t = true).
{ intros t Ht. unfold running_at, engine_dies, START_CHECK_DELAY_TIME,
    START_THRESHOLD_TIME in *. cbn [clock power_on].
  destruct (Z.leb_spec (0 + t) 1000); [reflexivity | lia]. }
assert (Hout : fst (cranking_wait engine_dies 0 0 (cranking_entry power_on))
               = (TimedOut, CRANKING_MAX_TIME)) by (vm_compute; reflexivity).
split; [exact Hon|]. split; [exact Hout|].
intros H. destruct (H Hon) as (ct & Hct & _). rewrite Hout in Hct. discriminate.
Qed.

(** C5, amended. Engine-running sampled true at every poll from one polling
    interval after the start-check delay through the threshold later: the
    loop ends by success at exactly that time (1100 ms), and [cranking]
    returns then. *)
Theorem C5_success_exit_time (pins : pins_t) (s : hw) :
  (forall t,
     START_CHECK_DELAY_TIME + POLLING_INTERVAL <= t
       <= START_CHECK_DELAY_TIME + POLLING_INTERVAL + START_THRESHOLD_TIME ->
     running_at pins (clock s) t = true) ->
  fst (cranking_wait pins 0 0 (cranking_entry s))
  = (StartConfirmed, START_CHECK_DELAY_TIME + POLLING_INTERVAL + START_THRESHOLD_TIME)
  /\ clock (exec (cranking pins) s)
     = clock s + (START_CHECK_DELAY_TIME + POLLING_INTERVAL + START_THRESHOLD_TIME).
Proof.
intros Hon.
assert (Hexit : fst (cranking_wait pins 0 0 (cranking_entry s))
                = (StartConfirmed,
                   START_CHECK_DELAY_TIME + POLLING_INTERVAL + START_THRESHOLD_TIME)).
{ apply (cranking_wait_confirms pins (clock s)); try reflexivity;
    unfold START_CHECK_DELAY_TIME, POLLING_INTERVAL, START_THRESHOLD_TIME,
      CRANKING_MAX_TIME in *; try lia.
  - unfold cranking_entry, connect_relay. fw_step. lia.
  - intros t Ht1 Ht2 Ht3. apply Hon. mlia. }
split; [exact Hexit|].
rewrite cranking_exec.
pose proof (cranking_wait_timing pins 0 0 (cranking_entry s)
              ltac:(unfold CRANKING_MAX_TIME; lia) eq_refl (or_introl eq_refl)) as Ht.
destruct (cranking_wait pins 0 0 (cranking_entry s)) as [[e ct] s1].
cbn [fst snd] in *. injection Hexit as _ ->.
destruct Ht as (_ & _ & Hc & _).
unfold disconnect_relay. fw_step. rewrite Hc.
unfold cranking_entry, connect_relay. fw_step.
unfold START_CHECK_DELAY_TIME, POLLING_INTERVAL, START_THRESHOLD_TIME. lia.
Qed.

(** The engine-running input is low, that is running, all along. *)
Lemma C5_success_exit_time_witness :
  fst (cranking_wait (fun _ _ => 0) 0 0 (cranking_entry power_on))
  = (StartConfirmed, START_CHECK_DELAY_TIME + POLLING_INTERVAL + START_THRESHOLD_TIME)
  /\ clock (exec (cranking (fun _ _ => 0)) power_on)
     = clock power_on
       + (START_CHECK_DELAY_TIME + POLLING_INTERVAL + START_THRESHOLD_TIME).
Proof.
apply (C5_success_exit_time (fun _ _ => 0) power_on).
intros t Ht. reflexivity.
Defined.

(** C6. [cranking] is a total function: its loop is defined by recursion on
    the time left to [CRANKING_MAX_TIME].  Whatever the inputs, it returns
    no later than [CRANKING_MAX_TIME] after the call, with the relay off.
    With the engine never seen running, the loop makes exactly
    [CRANKING_MAX_TIME / POLLING_INTERVAL] passes (after [n] passes, for every
    [n] up to that number, it is still running and has counted [n] polling
    intervals; after the last of them its condition is false), ends by
    time-out with [cranking_time] at [CRANKING_MAX_TIME], and [cranking]
    returns exactly that long after the call. *)
Theorem C6_bounded_crank (pins : pins_t) (s : hw) :
  let s' := exec (cranking pins) s in
  (clock s' - clock s <= CRANKING_MAX_TIME /\ relay s' = false)
  /\ ((forall t, START_CHECK_DELAY_TIME < t <= CRANKING_MAX_TIME ->
                 running_at pins (clock s) t = false) ->
      fst (cranking_wait pins 0 0 (cranking_entry s)) = (TimedOut, CRANKING_MAX_TIME)
      /\ clock s' = clock s + CRANKING_MAX_TIME
      /\ (forall n : nat,
            Z.of_nat n <= CRANKING_MAX_TIME / POLLING_INTERVAL ->
            exists sn,
              cranking_passes pins n (0, 0, cranking_entry s)
              = Some (Z.of_nat n * POLLING_INTERVAL, 0, sn))
      /\ (forall st sn, cranking_pass pins CRANKING_MAX_TIME st sn = None)).
Proof.
cbv zeta. split.
- destruct (cranking_post pins s) as (Hr & _ & _ & _ & _ & _ & Hc).
  split; [lia | exact Hr].
- intros Hoff.
  assert (Hentry : clock (cranking_entry s) = clock s).
  { unfold cranking_entry, connect_relay. fw_step. reflexivity. }
  assert (Hexit : fst (fst (cranking_wait pins 0 0 (cranking_entry s))) = TimedOut).
  { apply (cranking_wait_never pins (clock s)); try reflexivity.
    - rewrite Hentry. lia.
    - unfold CRANKING_MAX_TIME. lia.
    - intros t Ht1 Ht2 _. apply Hoff. lia. }
  pose proof (cranking_wait_timing pins 0 0 (cranking_entry s)
                ltac:(unfold CRANKING_MAX_TIME; lia) eq_refl (or_introl eq_refl)) as Ht.
  rewrite cranking_exec.
  destruct (cranking_wait pins 0 0 (cranking_entry s)) as [[e ct] s1].
  cbn [fst snd] in *. subst e. destruct Ht as (_ & _ & Hc & _ & _ & ->).
  split; [reflexivity|]. split.
  + unfold disconnect_relay. fw_step. rewrite Hc, Hentry. lia.
  + split.
    * intros n Hn.
      destruct (cranking_passes_never pins (clock s) (cranking_entry s) n Hentry)
        as (sn & Hp & _).
      -- intros t Ht1 _. apply Hoff. exact Ht1.
      -- change (CRANKING_MAX_TIME / POLLING_INTERVAL) with 40 in Hn.
         unfold CRANKING_MAX_TIME, POLLING_INTERVAL. lia.
      -- exists sn. exact Hp.
    * intros st sn. reflexivity.
Qed.

(** The engine-running input is high, that is stopped, all along. *)
Lemma C6_bounded_crank_witness :
  fst (cranking_wait (fun _ _ => 32) 0 0 (cranking_entry power_on))
  = (TimedOut, CRANKING_MAX_TIME)
  /\ clock (exec (cranking (fun _ _ => 32)) power_on)
     = clock power_on + CRANKING_MAX_TIME.
Proof.
destruct (proj2 (C6_bounded_crank (fun _ _ => 32) power_on)) as (H1 & H2 & _).
- intros t Ht. reflexivity.
- split; [exact H1 | exact H2].
Defined.





(** C8 fails as stated: after the first pass of [main] the flag is set; the
    second pass cranks, the engine does not start, and the third pass does
    not crank. *)
Lemma C8_counterexample :
  isManualStarted (fst (run stalled 1 power_on)) = true
  /\ (forall t k, clock (snd (run stalled 1 power_on)) < t ->
        disabledOverride (stalled t k) = true /\ engineRunning (stalled t k) = false)
  /\ cranks (snd (run stalled 1 power_on)) = 0%nat
  /\ cranks (snd (run stalled 2 power_on)) = 1%nat
  /\ cranks (snd (run stalled 3 power_on)) = 1%nat
  /\ ~ C8_as_stated stalled (fst (run stalled 1 power_on)) (snd (run stalled 1 power_on)).
Proof.
assert (Hth : forall t k, clock (snd (run stalled 1 power_on)) < t ->
          disabledOverride (stalled t k) = true /\ engineRunning (stalled t k) = false).
{ intros t k Ht. change (clock (snd (run stalled 1 power_on))) with 100 in Ht.
  unfold stalled. destruct (Z.leb_spec t 100); [lia|]. split; reflexivity. }
split; [reflexivity|]. split; [exact Hth|].
split; [reflexivity|]. split; [vm_compute; reflexivity|].
split; [vm_compute; reflexivity|].
intros H. specialize (H eq_refl Hth 1%nat).
vm_compute in H. discriminate H.
Qed.

(** C8, amended. From a pass boundary with the flag set, with idle-stop
    disabled and the engine not running from then on, the next pass cranks,
    with no brake edge needed; the attempt fails, the flag is cleared, and no
    later pass cranks: after any number of passes exactly one attempt has
    been made. *)
Theorem C8_single_attempt_under_override (pins : pins_t) (c : ctl) (s : hw) :
  isManualStarted c = true ->
  (forall t k, clock s < t ->
     disabledOverride (pins t k) = true /\ engineRunning (pins t k) = false) ->
  forall n : nat,
    cranks (snd (ticks pins (S n) (c, s))) = S (cranks s)
    /\ isManualStarted (fst (ticks pins (S n) (c, s))) = false.
Proof.
intros Hflag Hth n.
rewrite ticks_S_first. unfold tick. cbn [fst snd].
pose proof (loop_body_cranks pins c s) as Hcr.
pose proof (loop_body_flag pins c s) as Hfl.
pose proof (loop_body_later pins c s) as Hlater.
destruct (restart_trigger_exec pins c s) as [k Hk]. cbv zeta in Hk.
assert (Hnow : clock s < clock s + POLLING_INTERVAL)
  by (unfold POLLING_INTERVAL; lia).
rewrite Hflag in Hk.
rewrite (proj2 (Hth _ 0%nat Hnow)), (proj1 (Hth _ 2%nat Hnow)),
  (proj1 (Hth _ 3%nat Hnow)) in Hk.
rewrite orb_true_r in Hk. cbn [orb negb andb] in Hk.
assert (Hfire : (if xorb (brakeReleased (lastInput c))
                        (brakeReleased (pins (clock s + POLLING_INTERVAL) 1%nat))
                 then true else true) = true) by (destruct (xorb _ _); reflexivity).
rewrite Hfire in Hk. rewrite Hk in Hcr, Hfl. cbn [fst snd] in Hcr. cbv zeta in Hfl.
match type of Hfl with context [engineRunning (pins ?t 1%nat)] =>
  assert (Hstill : engineRunning (pins t 1%nat) = false)
end.
{ apply Hth.
  destruct (cranking_post pins
              (mkHw (PORTB s) (DDRB s) (ACSR s) (clock s + POLLING_INTERVAL) k (cranks s)
                 (relay_after POLLING_INTERVAL s) (neutral_after POLLING_INTERVAL s)))
    as (_ & _ & _ & _ & _ & _ & Hd).
  cbn [clock] in Hd.
  unfold START_CHECK_DELAY_TIME, POLLING_INTERVAL, START_THRESHOLD_TIME in *. lia. }
rewrite Hstill in Hfl.
destruct (loop_body pins c s) as [c1 s1]. cbn [fst snd] in *.
pose proof (ticks_unarmed pins n c1 s1 Hfl) as Hrest.
destruct (ticks pins n (c1, s1)) as [cn sn]. cbn [fst snd].
destruct Hrest as (Hf & Hc & _).
- intros j Hj. apply Hth. unfold POLLING_INTERVAL. lia.
- split; [rewrite Hc; exact Hcr | exact Hf].
Qed.

(** Four more passes after the first pass of [main] under [stalled]. *)
Lemma C8_single_attempt_under_override_witness :
  run stalled 1 power_on = (mkCtl true 1, mkHw 7 24 128 100 3%nat 0%nat 0 100)
  /\ cranks (snd (ticks stalled 4
                    (mkCtl true 1, mkHw 7 24 128 100 3%nat 0%nat 0 100))) = 1%nat
  /\ isManualStarted (fst (ticks stalled 4
                             (mkCtl true 1, mkHw 7 24 128 100 3%nat 0%nat 0 100)))
     = false.
Proof.
split; [vm_compute; reflexivity|].
apply (C8_single_attempt_under_override stalled (mkCtl true 1)
         (mkHw 7 24 128 100 3%nat 0%nat 0 100) eq_refl).
intros t k Ht. cbn [clock] in Ht.
unfold stalled. destruct (Z.leb_spec t 100); [exfalso; lia|]. split; reflexivity.
Defined.




(** ** Further properties of the code *)

(** *** The registers *)

(** X2.  [transferShiftPosition] stores into PORTB with no bit changed but
    OUT_N, and touches no other register. *)
Theorem transferShiftPosition_only_OUT_N (pins : pins_t) (s : hw) (m : Z) :
  0 <= m < 8 -> m <> PORTB4 ->
  Z.testbit (PORTB (exec (transferShiftPosition pins) s)) m = Z.testbit (PORTB s) m
  /\ DDRB (exec (transferShiftPosition pins) s) = DDRB s
  /\ ACSR (exec (transferShiftPosition pins) s) = ACSR s.
Proof.
intros Hm Hne. rewrite transferShiftPosition_exec. cbv zeta. cbn [PORTB DDRB ACSR].
split; [|split; reflexivity].
unfold OUT_N. destruct (_ || _).
- rewrite testbit_clear by bit_range.
  destruct (Z.eqb_spec PORTB4 m); [congruence | apply andb_true_r].
- rewrite testbit_set by bit_range.
  destruct (Z.eqb_spec PORTB4 m); [congruence | apply orb_false_r].
Qed.

(** The pull-up bit of the brake input, in the state after start-up in
    gear. *)
Lemma transferShiftPosition_only_OUT_N_witness :
  Z.testbit (PORTB (exec (transferShiftPosition steady) in_gear)) PORTB2
  = Z.testbit (PORTB in_gear) PORTB2
  /\ DDRB (exec (transferShiftPosition steady) in_gear) = DDRB in_gear
  /\ ACSR (exec (transferShiftPosition steady) in_gear) = ACSR in_gear.
Proof.
apply (transferShiftPosition_only_OUT_N steady in_gear PORTB2).
- unfold PORTB2. lia.
- discriminate.
Defined.

(** X3.  [cranking] returns with PORTB as it was at the call, but for the relay
    bit and OUT_N, which are clear; DDRB and ACSR are as they were. *)
Theorem cranking_clears_relay_and_OUT_N (pins : pins_t) (s : hw) (m : Z) :
  0 <= m < 8 ->
  Z.testbit (PORTB (exec (cranking pins) s)) m
  = Z.testbit (PORTB s) m && negb (PORTB3 =? m) && negb (PORTB4 =? m)
  /\ DDRB (exec (cranking pins) s) = DDRB s
  /\ ACSR (exec (cranking pins) s) = ACSR s.
Proof.
intros Hm. rewrite cranking_exec.
destruct (cranking_wait_frame pins 0 0 (cranking_entry s)) as (HP & HD & HA & _).
set (w := cranking_wait pins 0 0 (cranking_entry s)) in *.
unfold disconnect_relay, modify_PORTB, exec, set_PORTB.
cbn [snd PORTB DDRB ACSR]. rewrite HP, HD, HA.
unfold cranking_entry, connect_relay, modify_PORTB, exec, set_PORTB.
cbn [snd PORTB DDRB ACSR]. split; [|split; reflexivity].
unfold OUT_BRAKE, OUT_N.
rewrite testbit_clear by bit_range.
rewrite testbit_set_clear by bit_range.
destruct (Z.testbit (PORTB s) m), (PORTB3 =? m), (PORTB4 =? m); reflexivity.
Qed.

(** The relay bit and a pull-up bit, from a PORTB with every bit set. *)
Lemma cranking_clears_relay_and_OUT_N_witness :
  Z.testbit (PORTB (exec (cranking steady) (mkHw 255 24 128 0 0%nat 0%nat 0 0))) PORTB3
  = false.
Proof.
exact (proj1 (cranking_clears_relay_and_OUT_N steady
                (mkHw 255 24 128 0 0%nat 0%nat 0 0) PORTB3 ltac:(unfold PORTB3; lia))).
Defined.

Section Registers.

Variable pins : pins_t.

Lemma transferShiftPosition_idle (s : hw) :
  idle_port (PORTB s) -> idle_port (PORTB (exec (transferShiftPosition pins) s)).
Proof.
intros H. rewrite transferShiftPosition_exec. cbv zeta. cbn [PORTB].
destruct (_ || _); destruct H as [-> | ->]; [left | left | right | right]; reflexivity.
Qed.

Lemma transferShiftPosition_regs (s : hw) :
  DDRB (exec (transferShiftPosition pins) s) = DDRB s
  /\ ACSR (exec (transferShiftPosition pins) s) = ACSR s.
Proof. rewrite transferShiftPosition_exec. split; reflexivity. Qed.

Lemma cranking_PORTB (s : hw) :
  PORTB (exec (cranking pins) s)
  = u8 (Z.land (u8 (Z.land (Z.lor (PORTB s) OUT_BRAKE) (Z.lnot OUT_N)))
               (Z.lnot OUT_BRAKE)).
Proof.
rewrite cranking_exec.
destruct (cranking_wait_frame pins 0 0 (cranking_entry s)) as (HP & _).
set (w := cranking_wait pins 0 0 (cranking_entry s)) in *.
unfold disconnect_relay, modify_PORTB, exec, set_PORTB.
cbn [snd PORTB]. rewrite HP. reflexivity.
Qed.

Lemma cranking_idle (s : hw) :
  idle_port (PORTB s) -> idle_port (PORTB (exec (cranking pins) s)).
Proof.
intros H. rewrite cranking_PORTB. destruct H as [-> | ->]; left; reflexivity.
Qed.

Lemma loop_body_registers (c : ctl) (s : hw) :
  let s' := snd (loop_body pins c s) in
  DDRB s' = DDRB s /\ ACSR s' = ACSR s
  /\ (idle_port (PORTB s) -> idle_port (PORTB s')).
Proof.
cbv zeta. rewrite loop_body_eq.
destruct (restart_trigger_exec pins c s) as [k Hk]. cbv zeta in Hk. rewrite Hk.
match goal with |- context [if ?f then _ else _] => destruct f end.
- cbv zeta. rewrite isStarted_exec. cbn [snd].
  match goal with |- context [exec (transferShiftPosition pins) ?x] =>
    destruct (transferShiftPosition_regs x) as [HD1 HA1];
    pose proof (transferShiftPosition_idle x) as HI1
  end.
  rewrite HD1, HA1. cbn [PORTB DDRB ACSR] in *.
  match goal with |- context [exec (cranking pins) ?x] =>
    destruct (cranking_post pins x) as (_ & _ & _ & HD & HA & _);
    pose proof (cranking_idle x) as HI
  end.
  cbn [PORTB DDRB ACSR] in *.
  split; [exact HD|]. split; [exact HA|].
  intros H. apply HI1, HI, H.
- cbn [snd].
  destruct (transferShiftPosition_regs
              (mkHw (PORTB s) (DDRB s) (ACSR s) (clock s + POLLING_INTERVAL) k (cranks s)
                 (relay_after POLLING_INTERVAL s) (neutral_after POLLING_INTERVAL s)))
    as [HD1 HA1].
  rewrite HD1, HA1. split; [reflexivity|]. split; [reflexivity|].
  intros H. apply transferShiftPosition_idle. exact H.
Qed.

Lemma run_registers (n : nat) (s0 : hw) :
  let s := snd (run pins n s0) in
  DDRB s = IO_DIR /\ ACSR s = u8 (Z.lor (ACSR s0) (_BV ACD)) /\ idle_port (PORTB s).
Proof.
induction n as [|n IH]; cbn [run].
- unfold boot, init. fw_step.
  match goal with |- context [transferShiftPosition pins ?x] =>
    pose proof (transferShiftPosition_exec pins x) as He;
    pose proof (transferShiftPosition_idle x) as Hi;
    unfold exec in He, Hi;
    destruct (transferShiftPosition pins x) as [[] s1]
  end.
  cbn [snd fst] in *. cbv zeta in He. cbn [PORTB DDRB ACSR] in *.
  split; [rewrite He; reflexivity|]. split; [rewrite He; reflexivity|].
  apply Hi. left. reflexivity.
- unfold tick. cbv zeta in *.
  destruct (loop_body_registers (fst (run pins n s0)) (snd (run pins n s0)))
    as (HD & HA & HI).
  destruct IH as (IHD & IHA & IHI).
  split; [congruence|]. split; [congruence|]. apply HI. exact IHI.
Qed.

End Registers.

(** X1.  After [init] and after every pass of the loop of [main], from whatever
    power-on state: DDRB makes PB3 and PB4 the only outputs, the comparator
    is off with the other bits of ACSR as at power-on, and PORTB holds the
    three pull-ups, the relay bit clear and nothing else but OUT_N. *)
Theorem registers_configured (pins : pins_t) (s0 : hw) (n : nat) :
  let s := snd (run pins n s0) in
  DDRB s = IO_DIR
  /\ ACSR s = u8 (Z.lor (ACSR s0) (_BV ACD))
  /\ Z.testbit (ACSR s) ACD = true
  /\ PORTB s = (if reports_neutral s then INPUT_PULL_UP
                else Z.lor INPUT_PULL_UP OUT_N).
Proof.
cbv zeta. destruct (run_registers pins n s0) as (HD & HA & HP). cbv zeta in *.
split; [exact HD|]. split; [exact HA|]. split.
- rewrite HA. rewrite testbit_u8 by reflexivity.
  rewrite Z.lor_spec, testbit_BV by (unfold ACD; lia).
  rewrite Z.eqb_refl. apply orb_true_r.
- unfold reports_neutral. destruct HP as [-> | ->]; reflexivity.
Qed.

(** *** The polling loop, pass by pass *)

Section LoopStates.

Variable pins : pins_t.

(** The loop states of an attempt: after [n] passes, [cranking_time] is [n]
    polling intervals, no more than [CRANKING_MAX_TIME], and is the time
    that has passed; [start_time] is unset or a time after the start-check
    delay, less than the threshold ago. *)
Lemma cranking_passes_state (s : hw) (n : nat) (ct st : Z) (s1 : hw) :
  cranking_passes pins n (0, 0, s) = Some (ct, st, s1) ->
  ct = Z.of_nat n * POLLING_INTERVAL /\ ct <= CRANKING_MAX_TIME
  /\ (st = 0 \/ (START_CHECK_DELAY_TIME < st <= ct /\ ct - st < START_THRESHOLD_TIME))
  /\ st mod POLLING_INTERVAL = 0
  /\ clock s1 = clock s + ct.
Proof.
revert ct st s1. induction n as [|n IH]; intros ct st s1; cbn [cranking_passes].
- intros Hp. injection Hp as <- <- <-.
  unfold CRANKING_MAX_TIME, POLLING_INTERVAL. repeat split; mlia.
- destruct (cranking_passes pins n (0, 0, s)) as [[[ct0 st0] s0]|]; [|discriminate].
  destruct (IH ct0 st0 s0 eq_refl) as (Hct & Hmax & Hst & Hstm & Hclock).
  unfold cranking_pass.
  unfold CRANKING_MAX_TIME, POLLING_INTERVAL, START_CHECK_DELAY_TIME,
    START_THRESHOLD_TIME in *.
  destruct (Z_lt_dec ct0 4000) as [Hlt|]; [|discriminate].
  rewrite (int16_small (ct0 + 100)) by lia.
  assert (Hnext : ct0 + 100 = Z.of_nat (S n) * 100) by lia.
  assert (Hle : ct0 + 100 <= 4000) by lia.
  destruct (Z.geb_spec 500 (ct0 + 100)).
  + intros Hp. injection Hp as <- <- <-. cbn [clock delayed].
    unfold POLLING_INTERVAL. repeat split; mlia.
  + destruct (running_at pins (clock s0) 100).
    * set (st1 := if st0 =? 0 then ct0 + 100 else st0).
      assert (Hst1 : 500 < st1 <= ct0 + 100).
      { unfold st1. destruct (Z.eqb_spec st0 0); lia. }
      assert (Hst1m : st1 mod 100 = 0).
      { unfold st1. destruct (Z.eqb_spec st0 0); mlia. }
      rewrite (int16_small (ct0 + 100 - st1)) by lia.
      destruct (Z.leb_spec 500 (ct0 + 100 - st1)); [discriminate|].
      intros Hp. injection Hp as <- <- <-. cbn [clock polled].
      unfold POLLING_INTERVAL. repeat split; mlia.
    * intros Hp. injection Hp as <- <- <-. cbn [clock polled].
      unfold POLLING_INTERVAL. repeat split; mlia.
Qed.

End LoopStates.

(** X4.  In every loop state of an attempt, [cranking_time] is a whole number of
    polling intervals, at most [CRANKING_MAX_TIME], and equals the time
    passed since the call; [start_time] is unset or a time after the
    start-check delay less than the threshold ago.  So the sum and the
    difference the next pass computes lie between 0 and [CRANKING_MAX_TIME]:
    the 16-bit [int] never wraps.  And the loop has been left after
    [CRANKING_MAX_TIME / POLLING_INTERVAL] passes at the latest. *)
Theorem cranking_loop_invariant (pins : pins_t) (s : hw) :
  (forall n ct st s1,
     cranking_passes pins n (0, 0, cranking_entry s) = Some (ct, st, s1) ->
     ct = Z.of_nat n * POLLING_INTERVAL /\ 0 <= ct <= CRANKING_MAX_TIME
     /\ (st = 0 \/ (START_CHECK_DELAY_TIME < st <= ct /\ ct - st < START_THRESHOLD_TIME))
     /\ st mod POLLING_INTERVAL = 0
     /\ clock s1 = clock s + ct
     /\ (ct < CRANKING_MAX_TIME ->
         int16 (ct + POLLING_INTERVAL) = ct + POLLING_INTERVAL
         /\ ct + POLLING_INTERVAL <= CRANKING_MAX_TIME
         /\ (let st1 := if st =? 0 then ct + POLLING_INTERVAL else st in
             int16 (ct + POLLING_INTERVAL - st1) = ct + POLLING_INTERVAL - st1
             /\ 0 <= ct + POLLING_INTERVAL - st1 <= START_THRESHOLD_TIME)))
  /\ (forall n : nat,
        CRANKING_MAX_TIME / POLLING_INTERVAL < Z.of_nat n ->
        cranking_passes pins n (0, 0, cranking_entry s) = None).
Proof.
split.
- intros n ct st s1 H.
  destruct (cranking_passes_state pins _ _ _ _ _ H)
    as (Hct & Hmax & Hst & Hstm & Hclock).
  assert (Hentry : clock (cranking_entry s) = clock s).
  { unfold cranking_entry, connect_relay. fw_step. reflexivity. }
  rewrite Hentry in Hclock.
  unfold CRANKING_MAX_TIME, POLLING_INTERVAL, START_CHECK_DELAY_TIME,
    START_THRESHOLD_TIME in *.
  split; [exact Hct|]. split; [lia|]. split; [exact Hst|]. split; [exact Hstm|].
  split; [exact Hclock|].
  intros Hlt. cbv zeta.
  assert (Hst1 : 0 <= ct + 100 - (if st =? 0 then ct + 100 else st) <= 500).
  { destruct (Z.eqb_spec st 0); mlia. }
  rewrite (int16_small (ct + 100)) by lia.
  rewrite (int16_small (ct + 100 - (if st =? 0 then ct + 100 else st))) by lia.
  repeat split; mlia.
- intros n Hn. change (CRANKING_MAX_TIME / POLLING_INTERVAL) with 40 in Hn.
  destruct (cranking_passes pins n (0, 0, cranking_entry s)) as [[[ct st] s1]|] eqn:E;
    [|reflexivity].
  destruct (cranking_passes_state pins _ _ _ _ _ E) as (Hct & Hmax & _).
  unfold CRANKING_MAX_TIME, POLLING_INTERVAL in *. lia.
Qed.

(** With the engine stopped all along, the loop state after seven passes. *)
Lemma cranking_loop_invariant_witness :
  700 = Z.of_nat 7 * POLLING_INTERVAL /\ 0 <= 700 <= CRANKING_MAX_TIME.
Proof.
destruct (proj1 (cranking_loop_invariant steady in_gear) 7%nat 700 0
            (mkHw 15 24 128 700 1%nat 1%nat 700 700) eq_refl) as (H1 & H2 & _).
split; [exact H1 | exact H2].
Defined.

(** *** What ends an attempt *)

Section Debounce.

Variable pins : pins_t.

(** A success exit has the engine seen running at every poll of the last
    threshold. *)
Lemma cranking_wait_confirmed_window (t0 ct st : Z) (s : hw) :
  clock s = t0 + ct ->
  0 <= ct <= CRANKING_MAX_TIME -> ct mod POLLING_INTERVAL = 0 ->
  (st = 0 \/
   (START_CHECK_DELAY_TIME < st <= ct
    /\ forall t, st <= t <= ct -> t mod POLLING_INTERVAL = 0 ->
                 running_at pins t0 t = true)) ->
  forall ct' s',
    cranking_wait pins ct st s = (StartConfirmed, ct', s') ->
    START_CHECK_DELAY_TIME < ct' - START_THRESHOLD_TIME
    /\ forall t, ct' - START_THRESHOLD_TIME <= t <= ct' ->
                 t mod POLLING_INTERVAL = 0 -> running_at pins t0 t = true.
Proof.
revert st s. pattern ct. apply cranking_wait_passes. clear ct.
intros ct IH st s Hclock Hct Hmod Hst ct' s'.
destruct (Z_lt_dec ct CRANKING_MAX_TIME) as [Hlt|Hge].
- rewrite cranking_wait_pass by assumption. cbv zeta.
  specialize (IH Hlt).
  unfold CRANKING_MAX_TIME, POLLING_INTERVAL, START_CHECK_DELAY_TIME,
    START_THRESHOLD_TIME in *.
  rewrite (int16_small (ct + 100)) in * by lia.
  assert (Hct1 : 0 <= ct + 100 <= 4000) by mlia.
  assert (Hmod1 : (ct + 100) mod 100 = 0) by mlia.
  destruct (Z.geb_spec 500 (ct + 100)) as [Hdelay|Hpast].
  + apply IH; cbn [clock delayed]; unfold POLLING_INTERVAL; try lia;
    try (left; reflexivity).
  + destruct (running_at pins (clock s) 100) eqn:Hs.
    * assert (Hs' : running_at pins t0 (ct + 100) = true).
      { unfold running_at in *. rewrite Hclock in Hs.
        replace (t0 + (ct + 100)) with (t0 + ct + 100) by lia. exact Hs. }
      set (st1 := if st =? 0 then ct + 100 else st).
      assert (Hst1 : 500 < st1 <= ct + 100
                     /\ forall t, st1 <= t <= ct + 100 -> t mod 100 = 0 ->
                                  running_at pins t0 t = true).
      { unfold st1. destruct (Z.eqb_spec st 0) as [->|Hne].
        - split; [lia|]. intros t Ht _. replace t with (ct + 100) by lia. exact Hs'.
        - destruct Hst as [?|[Hr Hw]]; [contradiction|]. split; [lia|].
          intros t Ht Htm. destruct (Z_le_dec t ct); [apply Hw; lia|].
          replace t with (ct + 100) by mlia. exact Hs'. }
      rewrite (int16_small (ct + 100 - st1)) by lia.
      destruct (Z.leb_spec 500 (ct + 100 - st1)) as [Hok|Hno].
      -- intros H. injection H as <- <-. split; [lia|].
         intros t Ht Htm. apply Hst1; lia.
      -- apply IH; cbn [clock polled]; unfold POLLING_INTERVAL; try lia.
         right. exact Hst1.
    * apply IH; cbn [clock polled]; unfold POLLING_INTERVAL; try lia;
    try (left; reflexivity).
- rewrite cranking_wait_done by assumption. discriminate.
Qed.

(** The engine seen running at every poll of a threshold-long window that
    starts after the start-check delay: the loop is left by success, at the
    end of the window at the latest. *)
Lemma cranking_wait_window_confirms (t0 T ct st : Z) (s : hw) :
  clock s = t0 + ct ->
  START_CHECK_DELAY_TIME < T - START_THRESHOLD_TIME -> T <= CRANKING_MAX_TIME ->
  T mod POLLING_INTERVAL = 0 ->
  (forall t, T - START_THRESHOLD_TIME <= t <= T -> t mod POLLING_INTERVAL = 0 ->
             running_at pins t0 t = true) ->
  0 <= ct < T -> ct mod POLLING_INTERVAL = 0 ->
  (st = 0 \/ START_CHECK_DELAY_TIME < st <= ct) ->
  (T - START_THRESHOLD_TIME <= ct -> st <> 0 /\ st <= T - START_THRESHOLD_TIME) ->
  exists ct',
    fst (cranking_wait pins ct st s) = (StartConfirmed, ct') /\ ct' <= T.
Proof.
intros Hclock HW HT HTm Hon. revert st s Hclock. pattern ct.
apply cranking_wait_passes. clear ct.
intros ct IH st s Hclock Hct Hmod Hst Hin.
unfold CRANKING_MAX_TIME, POLLING_INTERVAL, START_CHECK_DELAY_TIME,
  START_THRESHOLD_TIME in *.
rewrite cranking_wait_pass by (unfold CRANKING_MAX_TIME; lia). cbv zeta.
unfold CRANKING_MAX_TIME, POLLING_INTERVAL, START_CHECK_DELAY_TIME,
  START_THRESHOLD_TIME in *.
specialize (IH ltac:(lia)).
rewrite (int16_small (ct + 100)) in * by lia.
assert (Hmod1 : (ct + 100) mod 100 = 0) by mlia.
assert (Hle : ct + 100 <= T) by mlia.
destruct (Z.geb_spec 500 (ct + 100)) as [Hdelay|Hpast].
- apply IH; cbn [clock delayed]; unfold POLLING_INTERVAL; try lia;
    try (left; reflexivity).
- destruct (running_at pins (clock s) 100) eqn:Hs.
  + set (st1 := if st =? 0 then ct + 100 else st).
    assert (Hst1 : 500 < st1 <= ct + 100
                   /\ (T - 500 <= ct + 100 -> st1 <= T - 500)).
    { unfold st1. destruct (Z.eqb_spec st 0) as [->|Hne].
      - split; [lia|]. intros Hw.
        destruct (Z_le_dec (T - 500) ct) as [Hc|Hc]; [destruct (Hin Hc); lia | mlia].
      - split; [lia|]. intros Hw.
        destruct (Z_le_dec (T - 500) ct) as [Hc|Hc]; [destruct (Hin Hc); lia | lia]. }
    rewrite (int16_small (ct + 100 - st1)) by lia.
    destruct (Z.leb_spec 500 (ct + 100 - st1)) as [Hok|Hno].
    * exists (ct + 100). split; [reflexivity | lia].
    * apply IH; cbn [clock polled]; unfold POLLING_INTERVAL; try lia;
        try (intros Hw; split; [lia|]; apply Hst1; exact Hw).
  + assert (Hout : ct + 100 < T - 500).
    { destruct (Z_lt_dec (ct + 100) (T - 500)) as [|Hc]; [assumption|].
      exfalso. assert (Hs' : running_at pins t0 (ct + 100) = true)
        by (apply Hon; [lia | exact Hmod1]).
      unfold running_at in *. rewrite Hclock in Hs.
      replace (t0 + (ct + 100)) with (t0 + ct + 100) in Hs' by lia. congruence. }
    apply IH; cbn [clock polled]; unfold POLLING_INTERVAL; try lia;
    try (left; reflexivity).
Qed.

End Debounce.

(** X5.  An attempt ends by success only on the engine having been seen running
    at each of the polls of the last [START_THRESHOLD_TIME], none of them
    earlier than one polling interval after the start-check delay: one poll
    that sees the engine stopped starts the count again. *)
Theorem cranking_success_needs_full_window (pins : pins_t) (s : hw) (ct : Z) (s1 : hw) :
  cranking_wait pins 0 0 (cranking_entry s) = (StartConfirmed, ct, s1) ->
  START_CHECK_DELAY_TIME < ct - START_THRESHOLD_TIME
  /\ forall t, ct - START_THRESHOLD_TIME <= t <= ct ->
               t mod POLLING_INTERVAL = 0 -> running_at pins (clock s) t = true.
Proof.
intros H.
apply (cranking_wait_confirmed_window pins (clock s) 0 0 (cranking_entry s))
  with (s' := s1); try exact H; try reflexivity.
- unfold cranking_entry, connect_relay. fw_step. lia.
- unfold CRANKING_MAX_TIME. lia.
- left; reflexivity.
Qed.

Lemma cranking_success_needs_full_window_witness :
  START_CHECK_DELAY_TIME < 2000 - START_THRESHOLD_TIME
  /\ forall t, 2000 - START_THRESHOLD_TIME <= t <= 2000 ->
               t mod POLLING_INTERVAL = 0 ->
               running_at late_start (clock power_on) t = true.
Proof.
apply (cranking_success_needs_full_window late_start power_on 2000
         (mkHw 8 0 0 2000 1%nat 1%nat 2000 2000)).
vm_compute. reflexivity.
Defined.

(** X6.  Whenever the engine is seen running at every poll of a window of
    [START_THRESHOLD_TIME] that starts after the start-check delay and ends
    by [CRANKING_MAX_TIME], the attempt ends by success, at the end of that
    window at the latest; so an attempt that times out has seen no such
    window. *)
Theorem cranking_full_window_succeeds (pins : pins_t) (s : hw) (T : Z) :
  START_CHECK_DELAY_TIME < T - START_THRESHOLD_TIME -> T <= CRANKING_MAX_TIME ->
  T mod POLLING_INTERVAL = 0 ->
  (forall t, T - START_THRESHOLD_TIME <= t <= T -> t mod POLLING_INTERVAL = 0 ->
             running_at pins (clock s) t = true) ->
  exists ct,
    fst (cranking_wait pins 0 0 (cranking_entry s)) = (StartConfirmed, ct)
    /\ ct <= T.
Proof.
intros HW HT HTm Hon.
apply (cranking_wait_window_confirms pins (clock s) T 0 0 (cranking_entry s));
  try assumption; try reflexivity.
- unfold cranking_entry, connect_relay. fw_step. lia.
- unfold START_CHECK_DELAY_TIME, START_THRESHOLD_TIME in *. lia.
- left; reflexivity.
- unfold START_CHECK_DELAY_TIME, START_THRESHOLD_TIME in *. lia.
Qed.

Lemma cranking_full_window_succeeds_witness :
  exists ct,
    fst (cranking_wait late_start 0 0 (cranking_entry power_on)) = (StartConfirmed, ct)
    /\ ct <= 2300.
Proof.
apply (cranking_full_window_succeeds late_start power_on 2300).
- unfold START_CHECK_DELAY_TIME, START_THRESHOLD_TIME. lia.
- unfold CRANKING_MAX_TIME. lia.
- reflexivity.
- intros t Ht _. unfold running_at, late_start, START_THRESHOLD_TIME in *.
  cbn [clock power_on]. destruct (Z.ltb_spec (0 + t) 1500); [exfalso; lia | reflexivity].
Defined.

(** *** What an attempt looks at *)

Section SamePolls.

Variables pins1 pins2 : pins_t.
Variable t0 : Z.
Hypothesis same_polls :
  forall t, START_CHECK_DELAY_TIME < t <= CRANKING_MAX_TIME ->
            t mod POLLING_INTERVAL = 0 ->
            running_at pins1 t0 t = running_at pins2 t0 t.

Lemma cranking_wait_same_polls (ct st : Z) (s : hw) :
  clock s = t0 + ct -> 0 <= ct -> ct mod POLLING_INTERVAL = 0 ->
  cranking_wait pins1 ct st s = cranking_wait pins2 ct st s.
Proof.
revert st s. pattern ct. apply cranking_wait_passes. clear ct.
intros ct IH st s Hclock Hct Hmod.
destruct (Z_lt_dec ct CRANKING_MAX_TIME) as [Hlt|Hge].
- rewrite !cranking_wait_pass by assumption. cbv zeta.
  specialize (IH Hlt).
  unfold CRANKING_MAX_TIME, POLLING_INTERVAL, START_CHECK_DELAY_TIME in *.
  rewrite (int16_small (ct + 100)) in * by lia.
  assert (Hmod1 : (ct + 100) mod 100 = 0) by mlia.
  destruct (Z.geb_spec 500 (ct + 100)) as [Hdelay|Hpast].
  + apply IH; cbn [clock delayed]; unfold POLLING_INTERVAL; lia.
  + assert (Hs : running_at pins1 (clock s) 100 = running_at pins2 (clock s) 100).
    { unfold running_at. rewrite Hclock.
      replace (t0 + ct + 100) with (t0 + (ct + 100)) by lia.
      apply same_polls; mlia. }
    rewrite Hs.
    repeat match goal with
           | |- context [if ?b then _ else _] => destruct b
           end;
      try reflexivity; apply IH; cbn [clock polled]; unfold POLLING_INTERVAL; lia.
- rewrite !cranking_wait_done by assumption. reflexivity.
Qed.

End SamePolls.

Lemma cranking_same_polls (pins1 pins2 : pins_t) (s : hw) :
  (forall t, START_CHECK_DELAY_TIME < t <= CRANKING_MAX_TIME ->
             t mod POLLING_INTERVAL = 0 ->
             running_at pins1 (clock s) t = running_at pins2 (clock s) t) ->
  cranking pins1 s = cranking pins2 s.
Proof.
intros H.
pose proof (cranking_wait_same_polls pins1 pins2 (clock s) H 0 0 (cranking_entry s)) as Hw.
cbv beta iota delta [cranking bind connect_relay modify_PORTB].
unfold cranking_entry, connect_relay, modify_PORTB, exec in Hw. cbn [snd] in Hw.
rewrite Hw; [reflexivity | | lia | reflexivity].
unfold set_PORTB. cbn [clock]. lia.
Qed.

(** X7.  The result of [cranking], registers and time of return included, depends
    on the pins only through the engine-running input at the polls later
    than the start-check delay: what the pins do before that, between polls
    and on the other inputs makes no difference. *)
Theorem cranking_looks_at_late_polls_only (pins1 pins2 : pins_t) (s : hw) :
  (forall t, START_CHECK_DELAY_TIME < t <= CRANKING_MAX_TIME ->
             t mod POLLING_INTERVAL = 0 ->
             running_at pins1 (clock s) t = running_at pins2 (clock s) t) ->
  cranking pins1 s = cranking pins2 s.
Proof. apply cranking_same_polls. Qed.

Lemma cranking_looks_at_late_polls_only_witness :
  cranking steady in_gear = cranking noisy in_gear.
Proof.
apply (cranking_looks_at_late_polls_only steady noisy in_gear).
intros t Ht _. unfold running_at, noisy, steady, START_CHECK_DELAY_TIME in *.
change (clock in_gear) with 0.
destruct (Z.leb_spec (0 + t) 500); [exfalso; lia | reflexivity].
Defined.

(** *** Passes of the loop of [main] *)

(** X8.  A pass that does not crank takes one polling interval; a pass that
    cranks takes one polling interval and the attempt, which lasts from
    [START_CHECK_DELAY_TIME + POLLING_INTERVAL + START_THRESHOLD_TIME] to
    [CRANKING_MAX_TIME].  No pass cranks twice. *)
Theorem loop_body_duration (pins : pins_t) (c : ctl) (s : hw) :
  let s' := snd (loop_body pins c s) in
  (cranks s' = cranks s /\ clock s' = clock s + POLLING_INTERVAL)
  \/ (cranks s' = S (cranks s)
      /\ POLLING_INTERVAL
         + (START_CHECK_DELAY_TIME + POLLING_INTERVAL + START_THRESHOLD_TIME)
         <= clock s' - clock s <= POLLING_INTERVAL + CRANKING_MAX_TIME).
Proof.
cbv zeta. pose proof (loop_body_cranks pins c s) as Hcr.
pose proof (loop_body_clock pins c s) as Hcl.
pose proof (loop_body_eq pins c s) as Heq.
destruct (restart_trigger_frame pins c s) as (_ & _ & HT).
destruct (restart_trigger pins c s) as [[[ims input] fire] s1].
cbn [fst snd] in *. destruct fire.
- right. split; [exact Hcr|]. rewrite Heq. cbv zeta.
  rewrite isStarted_exec. cbn [snd].
  match goal with |- context [exec (transferShiftPosition pins) ?x] =>
    destruct (transferShiftPosition_frame pins x) as [Hc _] end.
  rewrite Hc. cbn [clock].
  destruct (cranking_post pins s1) as (_ & _ & _ & _ & _ & _ & Hd).
  unfold START_CHECK_DELAY_TIME, POLLING_INTERVAL, START_THRESHOLD_TIME,
    CRANKING_MAX_TIME in *. lia.
- left. split; [exact Hcr | apply Hcl; reflexivity].
Qed.

(** X9.  A pass whose first read of the port sees the engine running does not
    crank, whatever the flag, the brake and the other reads are; it sets the
    flag and takes one polling interval. *)
Theorem no_crank_while_engine_runs (pins : pins_t) (c : ctl) (s : hw) :
  engineRunning (pins (clock s + POLLING_INTERVAL) 0%nat) = true ->
  let '(c', s') := loop_body pins c s in
  cranks s' = cranks s /\ isManualStarted c' = true
  /\ clock s' = clock s + POLLING_INTERVAL.
Proof.
intros Hon.
pose proof (loop_body_cranks pins c s) as Hcr.
pose proof (loop_body_clock pins c s) as Hcl.
pose proof (loop_body_flag pins c s) as Hfl.
destruct (restart_trigger_exec pins c s) as [k Hk]. cbv zeta in Hk.
rewrite Hon in Hk. rewrite orb_true_r in Hk. cbn [negb andb] in Hk.
rewrite Hk in Hcr, Hcl, Hfl. cbn [fst snd] in Hcr, Hcl, Hfl.
destruct (loop_body pins c s) as [c' s']. cbn [fst snd] in *.
split; [exact Hcr|]. split; [exact Hfl | apply Hcl; reflexivity].
Qed.

(** Idle-stop disabled, brake just released, flag set, engine running. *)
Lemma no_crank_while_engine_runs_witness :
  let '(c', s') := loop_body (fun _ _ => 5) (mkCtl true 1) in_gear in
  cranks s' = cranks in_gear /\ isManualStarted c' = true
  /\ clock s' = clock in_gear + POLLING_INTERVAL.
Proof.
apply (no_crank_while_engine_runs (fun _ _ => 5) (mkCtl true 1) in_gear).
reflexivity.
Defined.

Lemma run_ticks (pins : pins_t) (n : nat) (s0 : hw) :
  run pins n s0 = ticks pins n (boot pins s0).
Proof.
induction n as [|n IH]; [reflexivity|]. cbn [run ticks]. rewrite IH. reflexivity.
Qed.

Lemma boot_frame (pins : pins_t) (s0 : hw) :
  isManualStarted (fst (boot pins s0)) = false
  /\ clock (snd (boot pins s0)) = clock s0
  /\ cranks (snd (boot pins s0)) = cranks s0.
Proof.
unfold boot, init. fw_step.
match goal with |- context [transferShiftPosition pins ?x] =>
  destruct (transferShiftPosition_frame pins x) as [Hc Hk];
  unfold exec in Hc, Hk;
  destruct (transferShiftPosition pins x) as [[] s1]
end.
cbn [fst snd clock cranks isManualStarted] in *.
split; [reflexivity|]. split; assumption.
Qed.

(** X10.  From power-on, for as many passes as the engine is not seen running at
    the first read of the pass, [cranking] is not called, whatever the brake
    and the other inputs do; the passes follow each other at the polling
    interval. *)
Theorem no_crank_before_first_start (pins : pins_t) (s0 : hw) (n : nat) :
  (forall j : nat, (1 <= j <= n)%nat ->
     engineRunning (pins (clock s0 + Z.of_nat j * POLLING_INTERVAL) 0%nat) = false) ->
  let '(c, s) := run pins n s0 in
  cranks s = cranks s0 /\ isManualStarted c = false
  /\ clock s = clock s0 + Z.of_nat n * POLLING_INTERVAL.
Proof.
intros Hoff. rewrite run_ticks.
destruct (boot_frame pins s0) as (Hf & Hc & Hk).
destruct (boot pins s0) as [cb sb]. cbn [fst snd] in *.
pose proof (ticks_unarmed pins n cb sb Hf) as H.
rewrite Hc in H. specialize (H Hoff).
destruct (ticks pins n (cb, sb)) as [c s]. destruct H as (H1 & H2 & H3).
split; [congruence|]. split; [exact H1 | exact H3].
Qed.

Lemma no_crank_before_first_start_witness :
  let '(c, s) := run brake_pumping 6 power_on in
  cranks s = cranks power_on /\ isManualStarted c = false
  /\ clock s = clock power_on + Z.of_nat 6 * POLLING_INTERVAL.
Proof.
apply (no_crank_before_first_start brake_pumping power_on 6).
intros j Hj.
destruct j as [|[|[|[|[|[|[|j]]]]]]]; try reflexivity; exfalso; lia.
Defined.

(** *** The bits of PINB that matter *)

Lemma land_IN_MASK_bits (v w : Z) :
  Z.land v IN_MASK = Z.land w IN_MASK ->
  disabledOverride v = disabledOverride w /\ neutral v = neutral w
  /\ brakeReleased v = brakeReleased w /\ engineRunning v = engineRunning w.
Proof.
intros H.
assert (Hb : forall m, Z.testbit IN_MASK m = true -> Z.testbit v m = Z.testbit w m).
{ intros m Hm. apply (f_equal (fun x => Z.testbit x m)) in H.
  rewrite !Z.land_spec, Hm, !andb_true_r in H. exact H. }
rewrite !disabledOverride_bit, !neutral_bit, !brakeReleased_bit, !engineRunning_bit.
rewrite (Hb PINB0), (Hb PINB1), (Hb PINB2), (Hb PINB5) by reflexivity.
repeat split; reflexivity.
Qed.

(** The reads made before the [if] of a pass, counted. *)
Lemma restart_trigger_reads (pins : pins_t) (c : ctl) (s : hw) :
  let t := clock s + POLLING_INTERVAL in
  let started := engineRunning (pins t 0%nat) in
  let isManualStarted1 := isManualStarted c || started in
  let changed := xorb (brakeReleased (lastInput c)) (brakeReleased (pins t 1%nat)) in
  let released := brakeReleased (pins t 2%nat) in
  restart_trigger pins c s
  = ((isManualStarted1, u8 (pins t 1%nat),
      isManualStarted1 && negb started &&
      (if changed then released || disabledOverride (pins t 3%nat)
       else disabledOverride (pins t 2%nat))),
     mkHw (PORTB s) (DDRB s) (ACSR s) t
          (if isManualStarted1 && negb started
           then (if changed then (if released then 3 else 4) else 3)
           else 2)%nat
          (cranks s)
          (relay_after POLLING_INTERVAL s) (neutral_after POLLING_INTERVAL s)).
Proof.
cbv zeta. unfold restart_trigger. fw_step.
rewrite engineRunning_u8, brake_changed, brakeReleased_u8.
destruct (isManualStarted c || engineRunning (pins (clock s + POLLING_INTERVAL) 0%nat));
  [|reflexivity].
destruct (engineRunning (pins (clock s + POLLING_INTERVAL) 0%nat)); [reflexivity|].
cbn [negb andb].
destruct (xorb _ _).
- fw_step. rewrite brakeReleased_u8.
  destruct (brakeReleased (pins (clock s + POLLING_INTERVAL) 2%nat)).
  + reflexivity.
  + fw_step. rewrite disabledOverride_u8. reflexivity.
- fw_step. rewrite disabledOverride_u8. reflexivity.
Qed.

Section InputBits.

Variables pins1 pins2 : pins_t.
Hypothesis same_inputs :
  forall t k, Z.land (pins1 t k) IN_MASK = Z.land (pins2 t k) IN_MASK.

Lemma transferShiftPosition_inputs (s : hw) :
  exec (transferShiftPosition pins1) s = exec (transferShiftPosition pins2) s.
Proof.
rewrite !transferShiftPosition_exec. cbv zeta.
destruct (land_IN_MASK_bits _ _ (same_inputs (clock s) (nread s))) as (-> & _).
destruct (land_IN_MASK_bits _ _ (same_inputs (clock s) (S (nread s)))) as (_ & -> & _).
reflexivity.
Qed.

Lemma cranking_inputs (s : hw) : cranking pins1 s = cranking pins2 s.
Proof.
apply cranking_same_polls. intros t _ _. unfold running_at.
rewrite !engineRunning_u8. apply land_IN_MASK_bits, same_inputs.
Qed.

Lemma cranking_inputs_exec (s : hw) :
  exec (cranking pins1) s = exec (cranking pins2) s.
Proof. unfold exec. rewrite cranking_inputs. reflexivity. Qed.

Lemma loop_body_inputs (c1 c2 : ctl) (s : hw) :
  isManualStarted c1 = isManualStarted c2 ->
  brakeReleased (lastInput c1) = brakeReleased (lastInput c2) ->
  let '(c1', s1') := loop_body pins1 c1 s in
  let '(c2', s2') := loop_body pins2 c2 s in
  s1' = s2' /\ isManualStarted c1' = isManualStarted c2'
  /\ brakeReleased (lastInput c1') = brakeReleased (lastInput c2').
Proof.
intros Hf Hb. rewrite !loop_body_eq, !restart_trigger_reads. cbv zeta.
set (t := clock s + POLLING_INTERVAL).
destruct (land_IN_MASK_bits _ _ (same_inputs t 0%nat)) as (_ & _ & _ & <-).
destruct (land_IN_MASK_bits _ _ (same_inputs t 1%nat)) as (_ & _ & Hb1 & _).
destruct (land_IN_MASK_bits _ _ (same_inputs t 2%nat)) as (<- & _ & <- & _).
destruct (land_IN_MASK_bits _ _ (same_inputs t 3%nat)) as (<- & _).
rewrite <- Hf, <- Hb, <- Hb1.
match goal with |- context [if (?a && ?b && ?c) then _ else _] =>
  destruct (a && b && c) end.
- rewrite cranking_inputs_exec, !isStarted_exec.
  match goal with |- context [engineRunning (pins1 ?a ?b)] =>
    destruct (land_IN_MASK_bits _ _ (same_inputs a b)) as (_ & _ & _ & <-) end.
  rewrite transferShiftPosition_inputs. cbn [isManualStarted lastInput].
  rewrite !brakeReleased_u8. repeat split; assumption.
- rewrite transferShiftPosition_inputs. cbn [isManualStarted lastInput].
  rewrite !brakeReleased_u8. repeat split; assumption.
Qed.

Lemma run_inputs (n : nat) (s0 : hw) :
  snd (run pins1 n s0) = snd (run pins2 n s0)
  /\ isManualStarted (fst (run pins1 n s0)) = isManualStarted (fst (run pins2 n s0))
  /\ brakeReleased (lastInput (fst (run pins1 n s0)))
     = brakeReleased (lastInput (fst (run pins2 n s0))).
Proof.
induction n as [|n IH]; cbn [run].
- unfold boot, init. fw_step.
  match goal with |- context [transferShiftPosition pins1 ?x] =>
    pose proof (transferShiftPosition_inputs x) as He;
    pose proof (transferShiftPosition_frame pins2 x) as [Hc _];
    unfold exec in He, Hc;
    destruct (transferShiftPosition pins1 x) as [[] s1];
    destruct (transferShiftPosition pins2 x) as [[] s2]
  end.
  cbn [fst snd] in *. subst s2. cbn [isManualStarted lastInput].
  rewrite !brakeReleased_u8.
  split; [reflexivity|]. split; [reflexivity|].
  apply land_IN_MASK_bits, same_inputs.
- unfold tick. destruct IH as (Hs & Hf & Hb).
  pose proof (loop_body_inputs (fst (run pins1 n s0)) (fst (run pins2 n s0))
                (snd (run pins1 n s0)) Hf Hb) as H.
  rewrite <- Hs.
  destruct (loop_body pins1 (fst (run pins1 n s0)) (snd (run pins1 n s0))) as [c1' s1'].
  destruct (loop_body pins2 (fst (run pins2 n s0)) (snd (run pins1 n s0))) as [c2' s2'].
  exact H.
Qed.

End InputBits.

(** X11.  The controller looks at four bits of PINB only, those of the four
    inputs: two runs whose ports agree on these bits at every read are in
    the same state after any number of passes, registers, time and call count
    included, with the same flag and the same stored brake input.  What PINB
    shows in its other bits, the read-back of the two outputs among them,
    makes no difference. *)
Theorem only_input_bits_matter (pins1 pins2 : pins_t) (s0 : hw) (n : nat) :
  (forall t k, Z.land (pins1 t k) IN_MASK = Z.land (pins2 t k) IN_MASK) ->
  snd (run pins1 n s0) = snd (run pins2 n s0)
  /\ isManualStarted (fst (run pins1 n s0)) = isManualStarted (fst (run pins2 n s0))
  /\ brakeReleased (lastInput (fst (run pins1 n s0)))
     = brakeReleased (lastInput (fst (run pins2 n s0))).
Proof. intros H. apply run_inputs. exact H. Qed.

(** [stalled] with the outputs and the unused pins read back as set. *)
Lemma only_input_bits_matter_witness :
  snd (run stalled 3 power_on) = snd (run (fun t k => Z.lor (stalled t k) 216) 3 power_on).
Proof.
apply (only_input_bits_matter stalled (fun t k => Z.lor (stalled t k) 216) power_on 3).
intros t k. unfold stalled. destruct (t <=? 100); reflexivity.
Defined.
